(** * Task-board backend: Board, Task and Status controllers

    A shallow embedding of the three Express controllers
    (controllers/boardController.js, controllers/taskController.js,
    controllers/statusController.js) over a relational store, and the
    properties of their create / update / delete operations.

    Conventions of the embedding.
    - A JavaScript string is the list of its UTF-16 code units.
    - A request field is a [JsValue]: absent ([JsUndefined]), [JsNull], a
      boolean, an integral number, a string, or an object / array, which is
      represented by what its conversion to a string gives (the only thing the
      controllers ever do with one), [None] when that conversion throws.
      Numbers stand for integers whose text form is the plain decimal numeral;
      fractions are outside the embedding.
    - The Prisma client is an external library.  Its queries are embedded as
      the relational operations they denote on three tables, each a list of
      rows in insertion order; keys are mathematical integers.
    - Controllers run one at a time: a controller is a function from the store
      to an outcome and the next store.  The clock reading used for the
      [createdAt] / [updatedAt] columns is an argument [now]. *)

From Stdlib Require Import ZArith NArith List Bool String Ascii DecimalString.
From Stdlib Require Import Lia Permutation Sorting.Sorted DecimalN.
Import ListNotations.

Open Scope Z_scope.

(* ================================================================= *)
(** ** JavaScript strings *)

Definition code_unit := N.
Definition jsstring := list code_unit.

(** A literal of the source, as code units. *)
Definition lit (s : string) : jsstring :=
  map N_of_ascii (list_ascii_of_string s).

Definition jsstring_eqb (a b : jsstring) : bool :=
  if list_eq_dec N.eq_dec a b then true else false.

(** WhiteSpace and LineTerminator code points of ECMAScript: what
    [String.prototype.trim] strips and what [parseInt] skips. *)
Definition isWhiteSpace (c : code_unit) : bool :=
  (existsb (N.eqb c)
     [9; 10; 11; 12; 13; 32; 160; 5760; 8232; 8233; 8239; 8287; 12288; 65279]
   || ((8192 <=? c) && (c <=? 8202)))%N.

Fixpoint trimStart (s : jsstring) : jsstring :=
  match s with
  | [] => []
  | c :: r => if isWhiteSpace c then trimStart r else s
  end.

Definition trimEnd (s : jsstring) : jsstring := rev (trimStart (rev s)).

(** [s.trim()] *)
Definition trim (s : jsstring) : jsstring := trimEnd (trimStart s).

(* ================================================================= *)
(** ** JavaScript values, as far as the controllers inspect them *)

Inductive JsValue : Type :=
| JsUndefined
| JsNull
| JsBoolean (b : bool)
| JsNumber (n : Z)
| JsString (s : jsstring)
| JsObject (str : option jsstring).

(** Thrown [Error] objects: the message and the ad hoc [status] field. *)
Record JsError : Type := mkError {
  err_message : string;
  err_status : option Z
}.

Inductive Completion (A : Type) : Type :=
| Normal (a : A)
| Throw (e : JsError).
Arguments Normal {A} a.
Arguments Throw {A} e.

Definition TypeError_primitive : JsError :=
  mkError "Cannot convert object to primitive value" None.

(** Truthiness, as tested by [!v] and [v ? _ : _]. *)
Definition truthy (v : JsValue) : bool :=
  match v with
  | JsUndefined | JsNull => false
  | JsBoolean b => b
  | JsNumber n => negb (n =? 0)
  | JsString s => negb (jsstring_eqb s [])
  | JsObject _ => true
  end.

(** [v == null] (the loose comparison also holds of [undefined]). *)
Definition nullish (v : JsValue) : bool :=
  match v with
  | JsUndefined | JsNull => true
  | _ => false
  end.

Definition decimal (n : N) : jsstring :=
  lit (NilEmpty.string_of_uint (N.to_uint n)).

Definition number_toString (n : Z) : jsstring :=
  if n <? 0 then 45%N :: decimal (Z.abs_N n) else decimal (Z.abs_N n).

(** [String(v)] *)
Definition ToString (v : JsValue) : Completion jsstring :=
  match v with
  | JsUndefined => Normal (lit "undefined")
  | JsNull => Normal (lit "null")
  | JsBoolean true => Normal (lit "true")
  | JsBoolean false => Normal (lit "false")
  | JsNumber n => Normal (number_toString n)
  | JsString s => Normal s
  | JsObject (Some s) => Normal s
  | JsObject None => Throw TypeError_primitive
  end.

Definition isDigit (c : code_unit) : bool := ((48 <=? c) && (c <=? 57))%N.

Fixpoint digits_prefix (s : jsstring) : list code_unit :=
  match s with
  | [] => []
  | c :: r => if isDigit c then c :: digits_prefix r else []
  end.

Definition digits_value (ds : list code_unit) : Z :=
  fold_left (fun acc c => 10 * acc + Z.of_N (c - 48)) ds 0.

(** [parseInt(s, 10)] on a string: leading white space is skipped, one sign
    is read, then the longest run of decimal digits; [None] is NaN. *)
Definition parseInt_string (s : jsstring) : option Z :=
  let t := trimStart s in
  let '(sign, body) :=
    match t with
    | 45%N :: r => (-1, r)
    | 43%N :: r => (1, r)
    | _ => (1, t)
    end in
  match digits_prefix body with
  | [] => None
  | ds => Some (sign * digits_value ds)
  end.

(** [parseInt(v, 10)] *)
Definition parseInt (v : JsValue) : Completion (option Z) :=
  match ToString v with
  | Normal s => Normal (parseInt_string s)
  | Throw e => Throw e
  end.

(* ================================================================= *)
(** ** The relational store *)

(** Rows of the three tables (columns as in the migrations). *)
Record Board : Type := mkBoard {
  board_id : Z;
  board_name : jsstring;
  board_createdAt : Z;
  board_updatedAt : Z
}.

Record Status : Type := mkStatus {
  status_id : Z;
  status_name : jsstring;
  status_createdAt : Z;
  status_updatedAt : Z
}.

Record Task : Type := mkTask {
  task_id : Z;
  task_title : jsstring;
  task_description : option jsstring;
  task_boardId : Z;
  task_statusId : option Z;
  task_createdAt : Z;
  task_updatedAt : Z
}.

(** The tables and the three SERIAL sequences that generate the ids. *)
Record Store : Type := mkStore {
  boards : list Board;
  tasks : list Task;
  statuses : list Status;
  board_seq : Z;
  task_seq : Z;
  status_seq : Z
}.

Definition empty_store : Store := mkStore [] [] [] 1 1 1.

Definition with_boards (l : list Board) (db : Store) : Store :=
  mkStore l (tasks db) (statuses db) (board_seq db) (task_seq db) (status_seq db).

Definition with_tasks (l : list Task) (db : Store) : Store :=
  mkStore (boards db) l (statuses db) (board_seq db) (task_seq db) (status_seq db).

Definition with_statuses (l : list Status) (db : Store) : Store :=
  mkStore (boards db) (tasks db) l (board_seq db) (task_seq db) (status_seq db).

(** [orderBy]: insertion into a list ordered by [le], and the sort it gives. *)
Fixpoint insert_by {A : Type} (le : A -> A -> bool) (x : A) (l : list A) : list A :=
  match l with
  | [] => [x]
  | y :: r => if le x y then x :: l else y :: insert_by le x r
  end.

Definition sort_by {A : Type} (le : A -> A -> bool) (l : list A) : list A :=
  fold_right (insert_by le) [] l.

(** The fields a [task.update] call may carry; [None] leaves the column as
    it is.  For the relation [status], [Some (Some i)] is
    [{ connect: { id: i } }] and [Some None] is [{ disconnect: true }]. *)
Record TaskUpdateInput : Type := mkTaskUpdate {
  data_title : option jsstring;
  data_description : option (option jsstring);
  data_board : option Z;
  data_status : option (option Z)
}.

Module Prisma.

(** What the client throws when [update] or [delete] finds no row. *)
Definition RecordNotFound : JsError :=
  mkError "Record to update or delete does not exist" None.

(** *** board *)

Definition board_findUnique_id (id : Z) (db : Store) : option Board :=
  find (fun b => board_id b =? id) (boards db).

Definition board_findUnique_name (name : jsstring) (db : Store) : option Board :=
  find (fun b => jsstring_eqb (board_name b) name) (boards db).

(** [findFirst({ where: { name, NOT: { id } } })] *)
Definition board_findFirst_name_not_id (name : jsstring) (id : Z) (db : Store)
  : option Board :=
  find (fun b => jsstring_eqb (board_name b) name && negb (board_id b =? id))
       (boards db).

Definition tasks_of (b : Board) (db : Store) : list Task :=
  filter (fun t => task_boardId t =? board_id b) (tasks db).

Definition newer_first (x y : Board * list Task) : bool :=
  board_createdAt (fst y) <=? board_createdAt (fst x).

(** [findMany({ include: { tasks: true }, orderBy: { createdAt: 'desc' } })] *)
Definition board_findMany_include_tasks_desc (db : Store)
  : list (Board * list Task) :=
  sort_by newer_first (map (fun b => (b, tasks_of b db)) (boards db)).

Definition board_create (now : Z) (name : jsstring) (db : Store) : Board * Store :=
  let b := mkBoard (board_seq db) name now now in
  (b, mkStore (boards db ++ [b]) (tasks db) (statuses db)
              (board_seq db + 1) (task_seq db) (status_seq db)).

Definition board_rename (now : Z) (name : jsstring) (b : Board) : Board :=
  mkBoard (board_id b) name (board_createdAt b) now.

Definition board_update (now : Z) (id : Z) (name : jsstring) (db : Store)
  : option (Board * Store) :=
  match board_findUnique_id id db with
  | None => None
  | Some b =>
      Some (board_rename now name b,
            with_boards
              (map (fun x => if board_id x =? id then board_rename now name x else x)
                   (boards db)) db)
  end.

Definition board_delete (id : Z) (db : Store) : option Store :=
  match board_findUnique_id id db with
  | None => None
  | Some _ =>
      Some (with_boards (filter (fun x => negb (board_id x =? id)) (boards db)) db)
  end.

(** *** status *)

Definition status_findUnique_id (id : Z) (db : Store) : option Status :=
  find (fun s => status_id s =? id) (statuses db).

Definition status_findUnique_name (name : jsstring) (db : Store) : option Status :=
  find (fun s => jsstring_eqb (status_name s) name) (statuses db).

Definition older_first (x y : Status) : bool :=
  status_createdAt x <=? status_createdAt y.

(** [findMany({ orderBy: { createdAt: 'asc' } })] *)
Definition status_findMany_asc (db : Store) : list Status :=
  sort_by older_first (statuses db).

Definition status_create (now : Z) (name : jsstring) (db : Store) : Status * Store :=
  let s := mkStatus (status_seq db) name now now in
  (s, mkStore (boards db) (tasks db) (statuses db ++ [s])
              (board_seq db) (task_seq db) (status_seq db + 1)).

Definition status_rename (now : Z) (name : jsstring) (s : Status) : Status :=
  mkStatus (status_id s) name (status_createdAt s) now.

Definition status_update (now : Z) (id : Z) (name : jsstring) (db : Store)
  : option (Status * Store) :=
  match status_findUnique_id id db with
  | None => None
  | Some s =>
      Some (status_rename now name s,
            with_statuses
              (map (fun x => if status_id x =? id then status_rename now name x else x)
                   (statuses db)) db)
  end.

Definition status_delete (id : Z) (db : Store) : option Store :=
  match status_findUnique_id id db with
  | None => None
  | Some _ =>
      Some (with_statuses (filter (fun x => negb (status_id x =? id)) (statuses db)) db)
  end.

(** *** task *)

Definition task_findUnique_id (id : Z) (db : Store) : option Task :=
  find (fun t => task_id t =? id) (tasks db).

Definition task_create (now : Z) (title : jsstring) (description : option jsstring)
    (boardId : Z) (statusId : option Z) (db : Store) : Task * Store :=
  let t := mkTask (task_seq db) title description boardId statusId now now in
  (t, mkStore (boards db) (tasks db ++ [t]) (statuses db)
              (board_seq db) (task_seq db + 1) (status_seq db)).

Definition task_apply (now : Z) (data : TaskUpdateInput) (t : Task) : Task :=
  mkTask (task_id t)
         (match data_title data with Some x => x | None => task_title t end)
         (match data_description data with Some x => x | None => task_description t end)
         (match data_board data with Some x => x | None => task_boardId t end)
         (match data_status data with Some x => x | None => task_statusId t end)
         (task_createdAt t)
         now.

Definition task_update (now : Z) (id : Z) (data : TaskUpdateInput) (db : Store)
  : option (Task * Store) :=
  match task_findUnique_id id db with
  | None => None
  | Some t =>
      Some (task_apply now data t,
            with_tasks
              (map (fun x => if task_id x =? id then task_apply now data x else x)
                   (tasks db)) db)
  end.

Definition task_delete (id : Z) (db : Store) : option Store :=
  match task_findUnique_id id db with
  | None => None
  | Some _ =>
      Some (with_tasks (filter (fun x => negb (task_id x =? id)) (tasks db)) db)
  end.

(** [task.deleteMany({ where: { boardId } })] *)
Definition task_deleteMany_boardId (boardId : Z) (db : Store) : Store :=
  with_tasks (filter (fun t => negb (task_boardId t =? boardId)) (tasks db)) db.

Definition refers_to (statusId : Z) (t : Task) : bool :=
  match task_statusId t with
  | Some i => i =? statusId
  | None => false
  end.

Definition task_unlink (now : Z) (t : Task) : Task :=
  mkTask (task_id t) (task_title t) (task_description t) (task_boardId t)
         None (task_createdAt t) now.

(** [task.updateMany({ where: { statusId }, data: { statusId: null } })] *)
Definition task_updateMany_unlink (now : Z) (statusId : Z) (db : Store) : Store :=
  with_tasks
    (map (fun t => if refers_to statusId t then task_unlink now t else t) (tasks db))
    db.

End Prisma.

(* ================================================================= *)
(** ** Requests and responses *)

(** Bodies passed to [res.json]. *)
Inductive Json : Type :=
| JBoard (b : Board)
| JTask (t : Task)
| JStatus (s : Status)
| JBoards (l : list (Board * list Task))
| JStatuses (l : list Status)
| JError (error : string)
| JMessage (message : string).

(** How a controller ends: [res.status(code).json(body)], or [next(err)]
    from its [catch] block. *)
Inductive Outcome : Type :=
| Respond (code : Z) (body : Json)
| Next (err : JsError).

(** A step of a controller body: go on with a value, or return early. *)
Inductive Flow (A : Type) : Type :=
| Continue (a : A)
| Return (o : Outcome).
Arguments Continue {A} a.
Arguments Return {A} o.

Notation "x <- e ;; k" :=
  (match e with Continue x => k | Return o => Return o end)
  (at level 61, e at next level, right associativity).

(** The fields the task controllers read from [req.body]. *)
Record TaskBody : Type := mkTaskBody {
  title : JsValue;
  description : JsValue;
  boardId : JsValue;
  statusId : JsValue;
  statusName : JsValue
}.

Definition is_undefined (v : JsValue) : bool :=
  match v with JsUndefined => true | _ => false end.

Definition is_null (v : JsValue) : bool :=
  match v with JsNull => true | _ => false end.

(** The guard [!v || typeof v !== 'string' || v.trim() === ''] and, when
    it lets [v] through, the value of [v.trim()]. *)
Definition required_text (v : JsValue) : option jsstring :=
  if negb (truthy v) then None
  else match v with
       | JsString s => if jsstring_eqb (trim s) [] then None else Some (trim s)
       | _ => None
       end.

(** [e.status || 400] *)
Definition status_or_400 (e : JsError) : Z :=
  match err_status e with
  | Some c => if c =? 0 then 400 else c
  | None => 400
  end.

(* ================================================================= *)
(** ** controllers/boardController.js *)

Definition getBoards (db : Store) : Outcome * Store :=
  (Respond 200 (JBoards (Prisma.board_findMany_include_tasks_desc db)), db).

Definition createBoard (now : Z) (name : JsValue) (db : Store) : Outcome * Store :=
  match required_text name with
  | None => (Respond 400 (JError "Board name is required"), db)
  | Some trimmedName =>
      match Prisma.board_findUnique_name trimmedName db with
      | Some _ => (Respond 400 (JError "Board name already exists"), db)
      | None =>
          let '(board, db') := Prisma.board_create now trimmedName db in
          (Respond 201 (JBoard board), db')
      end
  end.

Definition updateBoard (now : Z) (id name : JsValue) (db : Store) : Outcome * Store :=
  match parseInt id with
  | Throw e => (Next e, db)
  | Normal None => (Respond 400 (JError "Invalid board id"), db)
  | Normal (Some boardId) =>
      match required_text name with
      | None => (Respond 400 (JError "Board name is required"), db)
      | Some trimmedName =>
          match Prisma.board_findUnique_id boardId db with
          | None => (Respond 404 (JError "Board not found"), db)
          | Some _ =>
              match Prisma.board_findFirst_name_not_id trimmedName boardId db with
              | Some _ =>
                  (Respond 400 (JError "Another board with this name already exists"), db)
              | None =>
                  match Prisma.board_update now boardId trimmedName db with
                  | None => (Next Prisma.RecordNotFound, db)
                  | Some (updated, db') => (Respond 200 (JBoard updated), db')
                  end
              end
          end
      end
  end.

Definition deleteBoard (id : JsValue) (db : Store) : Outcome * Store :=
  match parseInt id with
  | Throw e => (Next e, db)
  | Normal None => (Respond 400 (JError "Invalid board id"), db)
  | Normal (Some boardId) =>
      match Prisma.board_findUnique_id boardId db with
      | None => (Respond 404 (JError "Board not found"), db)
      | Some _ =>
          let db1 := Prisma.task_deleteMany_boardId boardId db in
          match Prisma.board_delete boardId db1 with
          | None => (Next Prisma.RecordNotFound, db1)
          | Some db2 =>
              (Respond 200 (JMessage "Board and its tasks deleted successfully"), db2)
          end
      end
  end.

(* ================================================================= *)
(** ** controllers/statusController.js *)

Definition getStatuses (db : Store) : Outcome * Store :=
  (Respond 200 (JStatuses (Prisma.status_findMany_asc db)), db).

Definition createStatus (now : Z) (name : JsValue) (db : Store) : Outcome * Store :=
  match required_text name with
  | None => (Respond 400 (JError "Status name is required"), db)
  | Some trimmed =>
      match Prisma.status_findUnique_name trimmed db with
      | Some _ => (Respond 400 (JError "Status name already exists"), db)
      | None =>
          let '(status, db') := Prisma.status_create now trimmed db in
          (Respond 201 (JStatus status), db')
      end
  end.

Definition updateStatus (now : Z) (id name : JsValue) (db : Store) : Outcome * Store :=
  match parseInt id with
  | Throw e => (Next e, db)
  | Normal None => (Respond 400 (JError "Invalid status id"), db)
  | Normal (Some statusId) =>
      match required_text name with
      | None => (Respond 400 (JError "Status name is required"), db)
      | Some trimmed =>
          match Prisma.status_findUnique_id statusId db with
          | None => (Respond 404 (JError "Status not found"), db)
          | Some _ =>
              let conflict := Prisma.status_findUnique_name trimmed db in
              if match conflict with
                 | Some c => negb (status_id c =? statusId)
                 | None => false
                 end
              then (Respond 400 (JError "Another status with this name already exists"), db)
              else
                match Prisma.status_update now statusId trimmed db with
                | None => (Next Prisma.RecordNotFound, db)
                | Some (updated, db') => (Respond 200 (JStatus updated), db')
                end
          end
      end
  end.

Definition deleteStatus (now : Z) (id : JsValue) (db : Store) : Outcome * Store :=
  match parseInt id with
  | Throw e => (Next e, db)
  | Normal None => (Respond 400 (JError "Invalid status id"), db)
  | Normal (Some statusId) =>
      match Prisma.status_findUnique_id statusId db with
      | None => (Respond 404 (JError "Status not found"), db)
      | Some _ =>
          let db1 := Prisma.task_updateMany_unlink now statusId db in
          match Prisma.status_delete statusId db1 with
          | None => (Next Prisma.RecordNotFound, db1)
          | Some db2 => (Respond 200 (JMessage "Status deleted and tasks unlinked"), db2)
          end
      end
  end.

(* ================================================================= *)
(** ** controllers/taskController.js *)

Definition StatusNotFound : JsError := mkError "Status not found" (Some 404).

Definition StatusIdInvalid : JsError :=
  mkError "statusId must be a valid integer" (Some 400).

(** The helper shared by [createTask] and [updateTask].  [statusName] is
    received and never read. *)
Definition resolveStatus (statusId statusName : JsValue) (db : Store)
  : Completion Status :=
  if nullish statusId then Throw StatusNotFound
  else
    match parseInt statusId with
    | Throw e => Throw e
    | Normal None => Throw StatusIdInvalid
    | Normal (Some parsed) =>
        match Prisma.status_findUnique_id parsed db with
        | None => Throw StatusNotFound
        | Some s => Normal s
        end
    end.

Definition createTask (now : Z) (body : TaskBody) (db : Store) : Outcome * Store :=
  match required_text (title body) with
  | None => (Respond 400 (JError "Task title is required"), db)
  | Some trimmedTitle =>
      match parseInt (boardId body) with
      | Throw e => (Next e, db)
      | Normal None => (Respond 400 (JError "Valid boardId is required"), db)
      | Normal (Some parsedBoardId) =>
          match Prisma.board_findUnique_id parsedBoardId db with
          | None => (Respond 404 (JError "Board not found"), db)
          | Some _ =>
              match resolveStatus (statusId body) (statusName body) db with
              | Throw e => (Respond (status_or_400 e) (JError (err_message e)), db)
              | Normal status =>
                  match (if truthy (description body)
                         then match ToString (description body) with
                              | Normal s => Normal (Some (trim s))
                              | Throw e => Throw e
                              end
                         else Normal None) with
                  | Throw e => (Next e, db)
                  | Normal storedDescription =>
                      let '(task, db') :=
                        Prisma.task_create now trimmedTitle storedDescription
                          parsedBoardId (Some (status_id status)) db in
                      (Respond 201 (JTask task), db')
                  end
              end
          end
      end
  end.

(** The four blocks of [updateTask] that fill [data] from the request body;
    each either yields what goes into [data] ([None]: the field is absent
    and [data] gets no entry) or returns early. *)
Definition data_for_title (title : JsValue) : Flow (option jsstring) :=
  if negb (is_undefined title) then
    match required_text title with
    | None =>
        Return (Respond 400
                  (JError "Task title, if provided, must be a non-empty string"))
    | Some t => Continue (Some t)
    end
  else Continue None.

Definition data_for_description (description : JsValue)
  : Flow (option (option jsstring)) :=
  if negb (is_undefined description) then
    if is_null description then Continue (Some None)
    else match ToString description with
         | Normal s => Continue (Some (Some (trim s)))
         | Throw e => Return (Next e)
         end
  else Continue None.

Definition data_for_board (boardId : JsValue) (db : Store) : Flow (option Z) :=
  if negb (is_undefined boardId) then
    match parseInt boardId with
    | Throw e => Return (Next e)
    | Normal None => Return (Respond 400 (JError "boardId must be a valid integer"))
    | Normal (Some parsedBoardId) =>
        match Prisma.board_findUnique_id parsedBoardId db with
        | None => Return (Respond 404 (JError "Board not found"))
        | Some _ => Continue (Some parsedBoardId)
        end
    end
  else Continue None.

Definition data_for_status (statusId statusName : JsValue) (db : Store)
  : Flow (option (option Z)) :=
  if negb (is_undefined statusId) || negb (is_undefined statusName) then
    if is_null statusId || is_null statusName then Continue (Some None)
    else match resolveStatus statusId statusName db with
         | Throw e => Return (Respond (status_or_400 e) (JError (err_message e)))
         | Normal status => Continue (Some (Some (status_id status)))
         end
  else Continue None.

Definition updateTask_data (body : TaskBody) (db : Store) : Flow TaskUpdateInput :=
  newTitle <- data_for_title (title body) ;;
  newDescription <- data_for_description (description body) ;;
  newBoard <- data_for_board (boardId body) db ;;
  newStatus <- data_for_status (statusId body) (statusName body) db ;;
  Continue (mkTaskUpdate newTitle newDescription newBoard newStatus).

Definition updateTask (now : Z) (id : JsValue) (body : TaskBody) (db : Store)
  : Outcome * Store :=
  match parseInt id with
  | Throw e => (Next e, db)
  | Normal None => (Respond 400 (JError "Invalid task id"), db)
  | Normal (Some taskId) =>
      match Prisma.task_findUnique_id taskId db with
      | None => (Respond 404 (JError "Task not found"), db)
      | Some _ =>
          match updateTask_data body db with
          | Return o => (o, db)
          | Continue data =>
              match Prisma.task_update now taskId data db with
              | None => (Next Prisma.RecordNotFound, db)
              | Some (updated, db') => (Respond 200 (JTask updated), db')
              end
          end
      end
  end.

Definition deleteTask (id : JsValue) (db : Store) : Outcome * Store :=
  match parseInt id with
  | Throw e => (Next e, db)
  | Normal None => (Respond 400 (JError "Invalid task id"), db)
  | Normal (Some taskId) =>
      match Prisma.task_findUnique_id taskId db with
      | None => (Respond 404 (JError "Task not found"), db)
      | Some _ =>
          match Prisma.task_delete taskId db with
          | None => (Next Prisma.RecordNotFound, db)
          | Some db' => (Respond 200 (JMessage "Task deleted successfully"), db')
          end
      end
  end.

(* ================================================================= *)
(** ** The router and the reachable stores *)

Inductive Request : Type :=
| GET_boards
| POST_boards (name : JsValue)
| PUT_boards (id name : JsValue)
| DELETE_boards (id : JsValue)
| POST_tasks (body : TaskBody)
| PUT_tasks (id : JsValue) (body : TaskBody)
| DELETE_tasks (id : JsValue)
| GET_statuses
| POST_statuses (name : JsValue)
| PUT_statuses (id name : JsValue)
| DELETE_statuses (id : JsValue).

(** One request served at clock reading [now]: the route table, each route
    handing the request to its controller.  (routes/router.js puts a schema
    check in front of each controller; it can only turn a request away
    before the controller runs, and never touches the store.) *)
Definition router (now : Z) (r : Request) (db : Store) : Outcome * Store :=
  match r with
  | GET_boards => getBoards db
  | POST_boards name => createBoard now name db
  | PUT_boards id name => updateBoard now id name db
  | DELETE_boards id => deleteBoard id db
  | POST_tasks body => createTask now body db
  | PUT_tasks id body => updateTask now id body db
  | DELETE_tasks id => deleteTask id db
  | GET_statuses => getStatuses db
  | POST_statuses name => createStatus now name db
  | PUT_statuses id name => updateStatus now id name db
  | DELETE_statuses id => deleteStatus now id db
  end.

(** The stores the service can be in: the empty database, then any
    sequence of requests. *)
Inductive reachable : Store -> Prop :=
| reachable_empty : reachable empty_store
| reachable_request : forall now r db,
    reachable db -> reachable (snd (router now r db)).

(* ================================================================= *)
(** ** Properties of the store used in the statements *)

(** Some Board row, some Status row, has the id [i]. *)
Definition board_present (i : Z) (db : Store) : Prop :=
  exists b, In b (boards db) /\ board_id b = i.

Definition status_present (i : Z) (db : Store) : Prop :=
  exists s, In s (statuses db) /\ status_id s = i.

(** No orphan: every Task row points at a Board row, and at a Status row
    when its [statusId] is not null. *)
Definition referential_integrity (db : Store) : Prop :=
  forall t, In t (tasks db) ->
    board_present (task_boardId t) db /\
    (forall i, task_statusId t = Some i -> status_present i db).

(** A stored name: not empty, and equal to its own [trim]. *)
Definition trimmed_name (n : jsstring) : Prop := n <> [] /\ trim n = n.

(** Keys below the sequence and unique; names unique and trimmed. *)
Record consistent (db : Store) : Prop := mkConsistent {
  board_ids_fresh : Forall (fun b => board_id b < board_seq db) (boards db);
  board_ids_unique : NoDup (map board_id (boards db));
  board_names_unique : NoDup (map board_name (boards db));
  board_names_trimmed : Forall (fun b => trimmed_name (board_name b)) (boards db);
  status_ids_fresh : Forall (fun s => status_id s < status_seq db) (statuses db);
  status_ids_unique : NoDup (map status_id (statuses db));
  status_names_unique : NoDup (map status_name (statuses db));
  status_names_trimmed : Forall (fun s => trimmed_name (status_name s)) (statuses db);
  task_ids_fresh : Forall (fun t => task_id t < task_seq db) (tasks db);
  task_ids_unique : NoDup (map task_id (tasks db))
}.

(** Empty or white space only. *)
Definition blank (s : jsstring) : bool := forallb isWhiteSpace s.

(** A string on which [trimStart] has nothing to do. *)
Definition starts_clean (s : jsstring) : Prop := trimStart s = s.

(** [t'] is the row [t] after the Status [statusId] was unlinked: the same
    Task, its [statusId] null if it pointed at that Status and untouched
    otherwise. *)
Definition unlinked_from (statusId : Z) (t t' : Task) : Prop :=
  task_id t' = task_id t /\
  task_title t' = task_title t /\
  task_description t' = task_description t /\
  task_boardId t' = task_boardId t /\
  task_createdAt t' = task_createdAt t /\
  task_statusId t' = (if Prisma.refers_to statusId t then None else task_statusId t).

(** The scenario of the specification: Board "Sprint 1", Status "TODO",
    then the Task "Write spec" on that Board with that Status, and a second
    Task and Board next to them. *)
Definition sprint_body : TaskBody :=
  mkTaskBody (JsString (lit "Write spec")) JsUndefined (JsNumber 1) (JsNumber 1)
             JsUndefined.

Definition review_body : TaskBody :=
  mkTaskBody (JsString (lit " Review ")) (JsString (lit " read it  ")) (JsString (lit "2"))
             (JsString (lit "1")) JsUndefined.

Definition sprint_store : Store :=
  snd (router 50 (POST_tasks review_body)
    (snd (router 40 (POST_boards (JsString (lit "Backlog")))
      (snd (router 30 (POST_tasks sprint_body)
        (snd (router 20 (POST_statuses (JsString (lit "TODO")))
          (snd (router 10 (POST_boards (JsString (lit "Sprint 1"))) empty_store))))))))).

(** [conflict && conflict.id !== statusId] in [updateStatus]. *)
Definition status_conflict (n : jsstring) (i : Z) (db : Store) : bool :=
  match Prisma.status_findUnique_name n db with
  | Some c => negb (status_id c =? i)
  | None => false
  end.


(** [new] is [old] with exactly the fields present in [body] applied:
    an absent field keeps its column; a present one sets it. *)
Definition applies_present_fields (body : TaskBody) (old new : Task) : Prop :=
  task_id new = task_id old /\
  task_createdAt new = task_createdAt old /\
  (title body = JsUndefined -> task_title new = task_title old) /\
  (forall s, title body = JsString s -> task_title new = trim s) /\
  (description body = JsUndefined -> task_description new = task_description old) /\
  (description body = JsNull -> task_description new = None) /\
  (forall s, description body <> JsUndefined -> description body <> JsNull ->
     ToString (description body) = Normal s -> task_description new = Some (trim s)) /\
  (boardId body = JsUndefined -> task_boardId new = task_boardId old) /\
  (forall p, parseInt (boardId body) = Normal (Some p) -> task_boardId new = p) /\
  (statusId body = JsUndefined -> statusName body = JsUndefined ->
     task_statusId new = task_statusId old) /\
  (statusId body = JsNull \/ statusName body = JsNull -> task_statusId new = None) /\
  (forall p, statusId body <> JsNull -> statusName body <> JsNull ->
     parseInt (statusId body) = Normal (Some p) -> task_statusId new = Some p).

(** Request bodies used in the examples below. *)
Definition blank_title_body : TaskBody :=
  mkTaskBody (JsString (lit "   ")) JsUndefined JsUndefined JsUndefined JsUndefined.

Definition move_body : TaskBody :=
  mkTaskBody JsUndefined JsNull (JsNumber 2) JsNull JsUndefined.

Definition zero_board_body : TaskBody :=
  mkTaskBody (JsString (lit "Write spec")) JsUndefined (JsNumber 0) (JsNumber 1)
             JsUndefined.



Definition empty_description_body : TaskBody :=
  mkTaskBody (JsString (lit "Write spec")) (JsString []) (JsNumber 1) (JsNumber 1)
             JsUndefined.


(** A title that passes the guard of the task controllers. *)
Definition valid_title (v : JsValue) : Prop :=
  exists s, v = JsString s /\ blank s = false.

(* ================================================================= *)
(** ** server.js: the error middleware and the CORS origin check *)



(** [s.split(sep)] for a one-unit separator. *)
Fixpoint split (sep : code_unit) (s : jsstring) : list jsstring :=
  match s with
  | [] => [[]]
  | c :: r =>
      if (c =? sep)%N then [] :: split sep r
      else match split sep r with
           | [] => [[c]]
           | piece :: pieces => (c :: piece) :: pieces
           end
  end.

(** [pieces.join(sep)] *)
Fixpoint join (sep : code_unit) (pieces : list jsstring) : jsstring :=
  match pieces with
  | [] => []
  | [piece] => piece
  | piece :: rest => piece ++ sep :: join sep rest
  end.

Definition comma : code_unit := 44%N.

(** [process.env.ALLOWED_ORIGINS ? process.env.ALLOWED_ORIGINS.split(',')
     : ['http://localhost:5173']]; [None] is an unset variable. *)
Definition allowed (ALLOWED_ORIGINS : option jsstring) : list jsstring :=
  match ALLOWED_ORIGINS with
  | Some s => if jsstring_eqb s [] then [lit "http://localhost:5173"]
              else split comma s
  | None => [lit "http://localhost:5173"]
  end.

Definition NotAllowedByCORS : JsError := mkError "Not allowed by CORS" None.

(** The [origin] function given to [cors]: [Normal true] is
    [callback(null, true)], [Throw e] is [callback(e)].  [origin] is the
    request's Origin header, [None] when there is none. *)
Definition corsOrigin (allowedList : list jsstring) (origin : option jsstring)
  : Completion bool :=
  match origin with
  | None => Normal true
  | Some o =>
      if jsstring_eqb o [] then Normal true
      else if existsb (jsstring_eqb o) allowedList then Normal true
      else Throw NotAllowedByCORS
  end.

(* ================================================================= *)
(** ** validators/validate.js *)

(** The three parts of a request the middleware looks at. *)
Record RequestParts (P Q B : Type) : Type := mkParts {
  req_params : P;
  req_query : Q;
  req_body : B
}.
Arguments mkParts {P Q B} _ _ _.
Arguments req_params {P Q B} _.
Arguments req_query {P Q B} _.
Arguments req_body {P Q B} _.

(** What [schema.validate(part, options)] gives: the message of [error],
    or the converted [value]; the call itself may throw.  The schemas are
    objects of the Joi library and are taken as they come. *)
Definition SchemaValidate (A : Type) : Type := A -> Completion (string + A).

Record Schemas (P Q B : Type) : Type := mkSchemas {
  paramsSchema : option (SchemaValidate P);
  querySchema : option (SchemaValidate Q);
  bodySchema : option (SchemaValidate B)
}.
Arguments mkSchemas {P Q B} _ _ _.
Arguments paramsSchema {P Q B} _.
Arguments querySchema {P Q B} _.
Arguments bodySchema {P Q B} _.

(** One [if (schema) { ... }] block of the middleware. *)
Definition validate_part {A : Type} (schema : option (SchemaValidate A)) (part : A)
  : Flow A :=
  match schema with
  | None => Continue part
  | Some check =>
      match check part with
      | Throw e => Return (Next e)
      | Normal (inl message) => Return (Respond 400 (JError message))
      | Normal (inr value) => Continue value
      end
  end.

(** [validate(schemas)] applied to a request: [Continue req'] is
    [next()] with the parts replaced by the converted values. *)
Definition validate {P Q B : Type} (schemas : Schemas P Q B)
    (req : RequestParts P Q B) : Flow (RequestParts P Q B) :=
  newParams <- validate_part (paramsSchema schemas) (req_params req) ;;
  newQuery <- validate_part (querySchema schemas) (req_query req) ;;
  newBody <- validate_part (bodySchema schemas) (req_body req) ;;
  Continue (mkParts newParams newQuery newBody).

(* ================================================================= *)
(** ** Further vocabulary for the statements *)

(** The values a request carries. *)
Definition body_fields (b : TaskBody) : list JsValue :=
  [title b; description b; boardId b; statusId b; statusName b].

Definition request_fields (r : Request) : list JsValue :=
  match r with
  | GET_boards | GET_statuses => []
  | POST_boards name | POST_statuses name => [name]
  | PUT_boards id name | PUT_statuses id name => [id; name]
  | DELETE_boards id | DELETE_tasks id | DELETE_statuses id => [id]
  | POST_tasks body => body_fields body
  | PUT_tasks id body => id :: body_fields body
  end.

(** An object whose conversion to a string throws. *)
Definition unconvertible (v : JsValue) : bool :=
  match v with
  | JsObject None => true
  | _ => false
  end.

(** The answer is a success (200 or 201). *)
Definition succeeded (o : Outcome) : bool :=
  match o with
  | Respond code _ => (code =? 200) || (code =? 201)
  | Next _ => false
  end.


(** The three ways a request handled on [db] can end: a success; a 400
    or 404 with an error message and the store as it was; or the conversion
    error of a field that is an unconvertible object, handed to [next], the
    store again as it was. *)
Definition ends_well (r : Request) (db : Store) (res : Outcome * Store) : Prop :=
  (exists code body, fst res = Respond code body /\ (code = 200 \/ code = 201)) \/
  (snd res = db /\
   ((exists code message,
       fst res = Respond code (JError message) /\ (code = 400 \/ code = 404)) \/
    (fst res = Next TypeError_primitive /\
     existsb unconvertible (request_fields r) = true))).

(** The sequences start at 1 and so does every id. *)
Definition ids_from_one (db : Store) : Prop :=
  1 <= board_seq db /\ 1 <= status_seq db /\ 1 <= task_seq db /\
  Forall (fun b => 1 <= board_id b) (boards db) /\
  Forall (fun s => 1 <= status_id s) (statuses db) /\
  Forall (fun t => 1 <= task_id t) (tasks db).

(** The text columns of a Task row as the controllers write them. *)
Definition task_text_trimmed (t : Task) : Prop :=
  trimmed_name (task_title t) /\
  forall d, task_description t = Some d -> trim d = d.

(** The part [part] gets through [schema] as [value]: there is no schema
    and it is left alone, or the schema accepts it and converts it. *)
Definition accepted_as {A : Type} (schema : option (SchemaValidate A))
    (part value : A) : Prop :=
  match schema with
  | None => value = part
  | Some check => check part = Normal (inr value)
  end.

(** The schema is there and turns [part] down with [message]. *)
Definition rejected_with {A : Type} (schema : option (SchemaValidate A))
    (part : A) (message : string) : Prop :=
  exists check, schema = Some check /\ check part = Normal (inl message).

(** Sample schemas: an id that must be the number 1 or more, converted
    from its text; a body that is taken as it is. *)
Definition sample_id_schema : SchemaValidate JsValue :=
  fun v =>
    match parseInt v with
    | Normal (Some n) =>
        if 1 <=? n then Normal (inr (JsNumber n))
        else Normal (inl "id must be a positive number"%string)
    | _ => Normal (inl "id must be a number"%string)
    end.

Definition sample_body_schema : SchemaValidate TaskBody :=
  fun b =>
    match title b with
    | JsString _ => Normal (inr b)
    | _ => Normal (inl "title must be a string"%string)
    end.

(* ================================================================= *)
(** ** Strings: [trim] *)

Lemma jsstring_eqb_eq (a b : jsstring) : jsstring_eqb a b = true <-> a = b.
Proof.
  unfold jsstring_eqb. destruct (list_eq_dec N.eq_dec a b); split; congruence.
Qed.

Lemma jsstring_eqb_neq (a b : jsstring) : jsstring_eqb a b = false <-> a <> b.
Proof.
  unfold jsstring_eqb. destruct (list_eq_dec N.eq_dec a b); split; congruence.
Qed.

Lemma jsstring_eqb_refl (a : jsstring) : jsstring_eqb a a = true.
Proof. now apply jsstring_eqb_eq. Qed.

Lemma trimStart_blank (s : jsstring) : trimStart s = [] <-> blank s = true.
Proof.
  induction s as [|c r IH]; simpl.
  - tauto.
  - destruct (isWhiteSpace c); simpl.
    + exact IH.
    + split; discriminate.
Qed.

Lemma blank_trimStart (s : jsstring) : blank (trimStart s) = blank s.
Proof.
  induction s as [|c r IH]; simpl; trivial.
  destruct (isWhiteSpace c) eqn:E; simpl; trivial.
  now rewrite E.
Qed.

Lemma blank_rev (s : jsstring) : blank (rev s) = blank s.
Proof.
  unfold blank. induction s as [|c r IH]; simpl; trivial.
  rewrite forallb_app, IH. simpl. rewrite andb_true_r. apply andb_comm.
Qed.

Lemma rev_nil_iff {A : Type} (l : list A) : rev l = [] <-> l = [].
Proof.
  split; intros H.
  - rewrite <- (rev_involutive l), H. reflexivity.
  - subst. reflexivity.
Qed.

Lemma trim_blank (s : jsstring) : trim s = [] <-> blank s = true.
Proof.
  unfold trim, trimEnd.
  etransitivity; [apply rev_nil_iff|].
  etransitivity; [apply trimStart_blank|].
  now rewrite blank_rev, blank_trimStart.
Qed.

Lemma trimStart_clean (s : jsstring) : starts_clean (trimStart s).
Proof.
  unfold starts_clean. induction s as [|c r IH]; simpl; trivial.
  destruct (isWhiteSpace c) eqn:E; trivial.
  simpl. now rewrite E.
Qed.

Lemma trimStart_snoc (l : jsstring) (c : code_unit) :
  isWhiteSpace c = false -> trimStart (l ++ [c]) = trimStart l ++ [c].
Proof.
  intros Hc. induction l as [|d r IH]; simpl.
  - now rewrite Hc.
  - destruct (isWhiteSpace d); trivial.
Qed.

Lemma trimEnd_clean (s : jsstring) : starts_clean s -> starts_clean (trimEnd s).
Proof.
  unfold starts_clean, trimEnd. destruct s as [|c r]; simpl; trivial.
  destruct (isWhiteSpace c) eqn:E.
  - intros H. exfalso.
    assert (L : (List.length (trimStart r) <= List.length r)%nat).
    { clear. induction r as [|d r IH]; simpl; trivial.
      destruct (isWhiteSpace d); simpl; lia. }
    rewrite H in L. simpl in L. lia.
  - intros _. rewrite trimStart_snoc by assumption.
    rewrite rev_app_distr. simpl. now rewrite E.
Qed.

Lemma trimEnd_idem (s : jsstring) : trimEnd (trimEnd s) = trimEnd s.
Proof.
  unfold trimEnd. rewrite rev_involutive. now rewrite trimStart_clean.
Qed.

Lemma trim_idem (s : jsstring) : trim (trim s) = trim s.
Proof.
  unfold trim.
  rewrite (trimEnd_clean (trimStart s) (trimStart_clean s)).
  apply trimEnd_idem.
Qed.

Lemma trim_trimmed_name (s : jsstring) : trim s <> [] -> trimmed_name (trim s).
Proof. intros H. split; [assumption | apply trim_idem]. Qed.

(** What the guard on names and titles lets through. *)
Lemma required_text_string (s : jsstring) :
  required_text (JsString s) = if blank s then None else Some (trim s).
Proof.
  unfold required_text. simpl.
  destruct (blank s) eqn:B.
  - apply trim_blank in B. rewrite B.
    destruct (jsstring_eqb s []); reflexivity.
  - assert (T : trim s <> []).
    { intros T. apply trim_blank in T. congruence. }
    assert (S : s <> []).
    { intros ->. discriminate. }
    apply jsstring_eqb_neq in T, S. now rewrite T, S.
Qed.

Lemma required_text_Some (v : JsValue) (n : jsstring) :
  required_text v = Some n ->
  exists s, v = JsString s /\ blank s = false /\ n = trim s.
Proof.
  destruct v as [| |b|z|s|o];
    try (unfold required_text; simpl;
         try (destruct b); try (destruct (negb (z =? 0))); discriminate).
  rewrite required_text_string.
  destruct (blank s) eqn:B; [discriminate|].
  intros [= <-]. now exists s.
Qed.

Lemma required_text_trimmed (v : JsValue) (n : jsstring) :
  required_text v = Some n -> trimmed_name n.
Proof.
  intros H. apply required_text_Some in H as (s & -> & B & ->).
  apply trim_trimmed_name. intros T. apply trim_blank in T. congruence.
Qed.

(* ================================================================= *)
(** ** Tables: lookups by key, deletions, in-place updates *)

Section Table.

Context {A : Type}.
Variable key : A -> Z.

Lemma find_key_Some (i : Z) (l : list A) (a : A) :
  find (fun x => key x =? i) l = Some a -> In a l /\ key a = i.
Proof.
  intros H. apply find_some in H as [H1 H2]. split; [assumption | lia].
Qed.

Lemma find_key_None (i : Z) (l : list A) :
  find (fun x => key x =? i) l = None <-> (forall x, In x l -> key x <> i).
Proof.
  split.
  - intros H x Hx E. apply (find_none _ _ H) in Hx. lia.
  - intros H. destruct (find _ l) as [a|] eqn:F; trivial.
    apply find_key_Some in F as [F1 F2]. now apply H in F1.
Qed.

Lemma find_key_In (l : list A) (a : A) :
  In a l -> exists a', find (fun x => key x =? key a) l = Some a'.
Proof.
  intros H. destruct (find _ l) as [a'|] eqn:F.
  - now exists a'.
  - exfalso. now apply (proj1 (find_key_None _ _) F a).
Qed.

Lemma find_key_unique (l : list A) (a : A) :
  NoDup (map key l) -> In a l -> find (fun x => key x =? key a) l = Some a.
Proof.
  induction l as [|x r IH]; simpl; [tauto|].
  intros N [-> | H]; inversion N as [|? ? N1 N2]; subst.
  - now rewrite Z.eqb_refl.
  - destruct (key x =? key a) eqn:E.
    + exfalso. apply N1. apply Z.eqb_eq in E. rewrite E. now apply in_map.
    + now apply IH.
Qed.

Lemma find_key_removed (i : Z) (l : list A) :
  find (fun x => key x =? i) (filter (fun x => negb (key x =? i)) l) = None.
Proof.
  apply find_key_None. intros x Hx. apply filter_In in Hx as [_ Hx].
  destruct (key x =? i) eqn:E; [discriminate | lia].
Qed.

Lemma NoDup_column_filter {B : Type} (column : A -> B) (keep : A -> bool)
    (rows : list A) :
  NoDup (map column rows) -> NoDup (map column (filter keep rows)).
Proof.
  induction rows as [|x r IH]; simpl; trivial.
  intros N. inversion N as [|? ? N1 N2]; subst.
  destruct (keep x); simpl; [constructor|]; auto.
  intros H. apply N1. apply in_map_iff in H as (y & Hy & Hin).
  apply filter_In in Hin as [Hin _]. rewrite <- Hy. now apply in_map.
Qed.

Lemma NoDup_map_snoc {B : Type} (f : A -> B) (l : list A) (a : A) :
  NoDup (map f l) -> ~ In (f a) (map f l) -> NoDup (map f (l ++ [a])).
Proof.
  intros N H. rewrite map_app. simpl.
  apply NoDup_rev in N. rewrite <- (rev_involutive (map f l ++ [f a])).
  apply NoDup_rev. rewrite rev_app_distr. simpl. constructor; trivial.
  now rewrite <- in_rev.
Qed.

(** An update in place of the rows with key [i] that keeps their key. *)
Variable change : A -> A.
Hypothesis change_key : forall x, key (change x) = key x.

Lemma map_change_keys (i : Z) (l : list A) :
  map key (map (fun x => if key x =? i then change x else x) l) = map key l.
Proof.
  rewrite map_map. apply map_ext. intros x.
  destruct (key x =? i); auto.
Qed.

Lemma In_map_change (i : Z) (l : list A) (y : A) :
  In y (map (fun x => if key x =? i then change x else x) l) ->
  exists x, In x l /\ key x = key y /\ (y = x \/ (key x = i /\ y = change x)).
Proof.
  intros H. apply in_map_iff in H as (x & Hy & Hx). exists x.
  destruct (key x =? i) eqn:E; subst y; rewrite ?change_key; intuition lia.
Qed.

Lemma find_map_change (i : Z) (l : list A) (a : A) :
  find (fun x => key x =? i) l = Some a ->
  find (fun x => key x =? i) (map (fun x => if key x =? i then change x else x) l)
  = Some (change a).
Proof.
  induction l as [|x r IH]; simpl; [discriminate|].
  destruct (key x =? i) eqn:E.
  - intros [= ->]. now rewrite change_key, E.
  - rewrite E. exact IH.
Qed.

(** Renaming the row with key [i] to a name no other row holds keeps the
    names unique. *)
Variable name : A -> jsstring.
Variable n : jsstring.
Hypothesis change_name : forall x, name (change x) = n.

Lemma NoDup_names_change (i : Z) (l : list A) :
  NoDup (map key l) -> NoDup (map name l) ->
  (forall x, In x l -> name x = n -> key x = i) ->
  NoDup (map name (map (fun x => if key x =? i then change x else x) l)).
Proof.
  induction l as [|x r IH]; simpl; [constructor|].
  intros K N O. inversion K as [|? ? K1 K2]; inversion N as [|? ? N1 N2]; subst.
  constructor.
  - intros H. apply in_map_iff in H as (y & Hy & Hin).
    apply in_map_iff in Hin as (z & Hz & Hin). subst y.
    assert (key z <> key x).
    { intros E. apply K1. rewrite <- E. now apply in_map. }
    assert (name z <> name x).
    { intros E. apply N1. rewrite <- E. now apply in_map. }
    destruct (key z =? i) eqn:Ez, (key x =? i) eqn:Ex;
      rewrite ?change_name in Hy; try lia; try congruence.
    + assert (key x = i) by (apply O; auto). lia.
    + assert (key z = i) by (apply O; auto). lia.
  - apply IH; auto.
Qed.

End Table.

(* ================================================================= *)
(** ** Referential integrity is kept by every store operation *)

Lemma board_found_present (i : Z) (db : Store) (b : Board) :
  Prisma.board_findUnique_id i db = Some b -> board_present i db.
Proof. intros H. apply find_key_Some in H. now exists b. Qed.

Lemma status_found_present (i : Z) (db : Store) (s : Status) :
  Prisma.status_findUnique_id i db = Some s -> status_present i db.
Proof. intros H. apply find_key_Some in H. now exists s. Qed.

Lemma board_present_tables (i : Z) (db db' : Store) :
  boards db' = boards db -> board_present i db -> board_present i db'.
Proof. unfold board_present. now intros ->. Qed.

Lemma status_present_tables (i : Z) (db db' : Store) :
  statuses db' = statuses db -> status_present i db -> status_present i db'.
Proof. unfold status_present. now intros ->. Qed.

Lemma integrity_board_create (now : Z) (n : jsstring) (db : Store) :
  referential_integrity db ->
  referential_integrity (snd (Prisma.board_create now n db)).
Proof.
  intros RI t Ht. destruct (RI t Ht) as [(b & Hb & Eb) Hs]. split.
  - exists b. split; [|exact Eb]. simpl. apply in_or_app. now left.
  - exact Hs.
Qed.

Lemma integrity_status_create (now : Z) (n : jsstring) (db : Store) :
  referential_integrity db ->
  referential_integrity (snd (Prisma.status_create now n db)).
Proof.
  intros RI t Ht. destruct (RI t Ht) as [Hb Hs]. split; [exact Hb|].
  intros i Hi. destruct (Hs i Hi) as (s & Hin & Es).
  exists s. split; [|exact Es]. simpl. apply in_or_app. now left.
Qed.

Lemma integrity_board_update (now i : Z) (n : jsstring) (db db' : Store) (b : Board) :
  Prisma.board_update now i n db = Some (b, db') ->
  referential_integrity db -> referential_integrity db'.
Proof.
  unfold Prisma.board_update.
  destruct (Prisma.board_findUnique_id i db) as [found|]; [|discriminate].
  intros [= _ <-] RI t Ht. destruct (RI t Ht) as [(x & Hx & Ex) Hs].
  split; [|exact Hs].
  exists (if board_id x =? i then Prisma.board_rename now n x else x). split.
  - simpl. apply in_map_iff. now exists x.
  - now destruct (board_id x =? i).
Qed.

Lemma integrity_status_update (now i : Z) (n : jsstring) (db db' : Store) (s : Status) :
  Prisma.status_update now i n db = Some (s, db') ->
  referential_integrity db -> referential_integrity db'.
Proof.
  unfold Prisma.status_update.
  destruct (Prisma.status_findUnique_id i db) as [found|]; [|discriminate].
  intros [= _ <-] RI t Ht. destruct (RI t Ht) as [Hb Hs].
  split; [exact Hb|]. intros j Hj. destruct (Hs j Hj) as (x & Hx & Ex).
  exists (if status_id x =? i then Prisma.status_rename now n x else x). split.
  - simpl. apply in_map_iff. now exists x.
  - now destruct (status_id x =? i).
Qed.

(** First step of the cascade: the Tasks of the Board go. *)
Lemma integrity_task_deleteMany (i : Z) (db : Store) :
  referential_integrity db ->
  referential_integrity (Prisma.task_deleteMany_boardId i db) /\
  (forall t, In t (tasks (Prisma.task_deleteMany_boardId i db)) -> task_boardId t <> i).
Proof.
  intros RI. split.
  - intros t Ht. simpl in Ht. apply filter_In in Ht as [Ht _]. exact (RI t Ht).
  - intros t Ht. simpl in Ht. apply filter_In in Ht as [_ Ht].
    destruct (task_boardId t =? i) eqn:E; [discriminate | lia].
Qed.

(** Second step: a Board no Task points at can go. *)
Lemma integrity_board_delete (i : Z) (db db' : Store) :
  referential_integrity db ->
  (forall t, In t (tasks db) -> task_boardId t <> i) ->
  Prisma.board_delete i db = Some db' ->
  referential_integrity db'.
Proof.
  unfold Prisma.board_delete. intros RI Free.
  destruct (Prisma.board_findUnique_id i db) as [found|]; [|discriminate].
  intros [= <-] t Ht. destruct (RI t Ht) as [(b & Hb & Eb) Hs].
  split; [|exact Hs]. exists b. split; [|exact Eb].
  simpl. apply filter_In. split; [exact Hb|].
  specialize (Free t Ht). destruct (board_id b =? i) eqn:E; trivial. lia.
Qed.

(** First step of the unlink: the Tasks of the Status lose their status. *)
Lemma integrity_task_unlink (now i : Z) (db : Store) :
  referential_integrity db ->
  referential_integrity (Prisma.task_updateMany_unlink now i db) /\
  (forall t, In t (tasks (Prisma.task_updateMany_unlink now i db)) ->
     task_statusId t <> Some i).
Proof.
  intros RI. split.
  - intros t Ht. simpl in Ht. apply in_map_iff in Ht as (x & <- & Hx).
    destruct (RI x Hx) as [Hb Hs].
    destruct (Prisma.refers_to i x); [|now split].
    split; [exact Hb | discriminate].
  - intros t Ht. simpl in Ht. apply in_map_iff in Ht as (x & <- & Hx).
    destruct (Prisma.refers_to i x) eqn:E; [discriminate|].
    unfold Prisma.refers_to in E. destruct (task_statusId x); [|discriminate].
    intros [= ->]. rewrite Z.eqb_refl in E. discriminate.
Qed.

(** Second step: a Status no Task points at can go. *)
Lemma integrity_status_delete (i : Z) (db db' : Store) :
  referential_integrity db ->
  (forall t, In t (tasks db) -> task_statusId t <> Some i) ->
  Prisma.status_delete i db = Some db' ->
  referential_integrity db'.
Proof.
  unfold Prisma.status_delete. intros RI Free.
  destruct (Prisma.status_findUnique_id i db) as [found|]; [|discriminate].
  intros [= <-] t Ht. destruct (RI t Ht) as [Hb Hs].
  split; [exact Hb|]. intros j Hj. destruct (Hs j Hj) as (s & Hin & Es).
  exists s. split; [|exact Es].
  simpl. apply filter_In. split; [exact Hin|].
  specialize (Free t Ht). destruct (status_id s =? i) eqn:E; trivial.
  exfalso. apply Free. rewrite Hj. f_equal. lia.
Qed.

Lemma integrity_task_create (now : Z) (ttl : jsstring) (d : option jsstring)
    (b s : Z) (db : Store) :
  board_present b db -> status_present s db ->
  referential_integrity db ->
  referential_integrity (snd (Prisma.task_create now ttl d b (Some s) db)).
Proof.
  intros Hb Hs RI t Ht. simpl in Ht. apply in_app_or in Ht as [Ht | [<- | []]].
  - destruct (RI t Ht) as [(x & Hx & Ex) Xs]. split.
    + now exists x.
    + intros i Hi. destruct (Xs i Hi) as (y & Hy & Ey). now exists y.
  - simpl. split; [exact Hb|]. now intros i [= <-].
Qed.

Lemma integrity_task_update (now i : Z) (data : TaskUpdateInput)
    (db db' : Store) (t : Task) :
  (forall b, data_board data = Some b -> board_present b db) ->
  (forall s, data_status data = Some (Some s) -> status_present s db) ->
  Prisma.task_update now i data db = Some (t, db') ->
  referential_integrity db -> referential_integrity db'.
Proof.
  unfold Prisma.task_update. intros Hb Hs.
  destruct (Prisma.task_findUnique_id i db) as [found|]; [|discriminate].
  intros [= _ <-] RI y Hy. simpl in Hy. apply in_map_iff in Hy as (x & <- & Hx).
  destruct (RI x Hx) as [Xb Xs].
  destruct (task_id x =? i); [|now split].
  unfold Prisma.task_apply. simpl. split.
  - apply (board_present_tables _ db); trivial.
    destruct (data_board data) as [b|]; auto.
  - intros j Hj. apply (status_present_tables _ db); trivial. revert Hj.
    destruct (data_status data) as [[s|]|]; auto.
    + intros [= <-]. auto.
    + discriminate.
Qed.

Lemma integrity_task_delete (i : Z) (db db' : Store) :
  Prisma.task_delete i db = Some db' ->
  referential_integrity db -> referential_integrity db'.
Proof.
  unfold Prisma.task_delete.
  destruct (Prisma.task_findUnique_id i db) as [found|]; [|discriminate].
  intros [= <-] RI t Ht. simpl in Ht. apply filter_In in Ht as [Ht _].
  exact (RI t Ht).
Qed.

(** What [resolveStatus] returns is a row of the Status table. *)
Lemma resolveStatus_Normal (sid sname : JsValue) (db : Store) (s : Status) :
  resolveStatus sid sname db = Normal s ->
  nullish sid = false /\
  exists p, parseInt sid = Normal (Some p) /\
            Prisma.status_findUnique_id p db = Some s /\ status_id s = p.
Proof.
  unfold resolveStatus. destruct (nullish sid); [discriminate|].
  destruct (parseInt sid) as [[p|]|e]; try discriminate.
  destruct (Prisma.status_findUnique_id p db) as [r|] eqn:F; [|discriminate].
  intros [= ->]. split; trivial. exists p. repeat split; trivial.
  now apply find_key_Some in F.
Qed.

Lemma resolveStatus_present (sid sname : JsValue) (db : Store) (s : Status) :
  resolveStatus sid sname db = Normal s -> status_present (status_id s) db.
Proof.
  intros H. apply resolveStatus_Normal in H as (_ & p & _ & F & <-).
  apply find_key_Some in F. now exists s.
Qed.

(** The references [updateTask] puts in [data] have been looked up. *)
Lemma updateTask_data_Continue (body : TaskBody) (db : Store) (data : TaskUpdateInput) :
  updateTask_data body db = Continue data ->
  data_for_title (title body) = Continue (data_title data) /\
  data_for_description (description body) = Continue (data_description data) /\
  data_for_board (boardId body) db = Continue (data_board data) /\
  data_for_status (statusId body) (statusName body) db = Continue (data_status data).
Proof.
  unfold updateTask_data.
  destruct (data_for_title _); [|discriminate].
  destruct (data_for_description _); [|discriminate].
  destruct (data_for_board _ db); [|discriminate].
  destruct (data_for_status _ _ db); [|discriminate].
  intros [= <-]. simpl. auto.
Qed.

Lemma updateTask_data_checked (body : TaskBody) (db : Store) (data : TaskUpdateInput) :
  updateTask_data body db = Continue data ->
  (forall b, data_board data = Some b -> board_present b db) /\
  (forall s, data_status data = Some (Some s) -> status_present s db).
Proof.
  intros H. apply updateTask_data_Continue in H as (_ & _ & B & S). split.
  - intros b E. rewrite E in B. unfold data_for_board in B.
    destruct (negb (is_undefined (boardId body))); [|discriminate].
    destruct (parseInt (boardId body)) as [[p|]|]; try discriminate.
    destruct (Prisma.board_findUnique_id p db) eqn:F; [|discriminate].
    injection B as <-. exact (board_found_present _ _ _ F).
  - intros s E. rewrite E in S. unfold data_for_status in S.
    destruct (negb (is_undefined (statusId body)) || negb (is_undefined (statusName body)));
      [|discriminate].
    destruct (is_null (statusId body) || is_null (statusName body)); [discriminate|].
    destruct (resolveStatus (statusId body) (statusName body) db) eqn:R; [|discriminate].
    injection S as <-. exact (resolveStatus_present _ _ _ _ R).
Qed.

(** *** The controllers *)

Lemma integrity_createBoard (now : Z) (name : JsValue) (db : Store) :
  referential_integrity db -> referential_integrity (snd (createBoard now name db)).
Proof.
  intros RI. unfold createBoard.
  destruct (required_text name) as [n|]; trivial.
  destruct (Prisma.board_findUnique_name n db); trivial.
  now apply integrity_board_create.
Qed.

Lemma integrity_createStatus (now : Z) (name : JsValue) (db : Store) :
  referential_integrity db -> referential_integrity (snd (createStatus now name db)).
Proof.
  intros RI. unfold createStatus.
  destruct (required_text name) as [n|]; trivial.
  destruct (Prisma.status_findUnique_name n db); trivial.
  now apply integrity_status_create.
Qed.

Lemma integrity_updateBoard (now : Z) (id name : JsValue) (db : Store) :
  referential_integrity db -> referential_integrity (snd (updateBoard now id name db)).
Proof.
  intros RI. unfold updateBoard.
  destruct (parseInt id) as [[i|]|]; trivial.
  destruct (required_text name) as [n|]; trivial.
  destruct (Prisma.board_findUnique_id i db); trivial.
  destruct (Prisma.board_findFirst_name_not_id n i db); trivial.
  destruct (Prisma.board_update now i n db) as [[updated db']|] eqn:U; trivial.
  now apply (integrity_board_update _ _ _ _ _ _ U).
Qed.

Lemma integrity_updateStatus (now : Z) (id name : JsValue) (db : Store) :
  referential_integrity db -> referential_integrity (snd (updateStatus now id name db)).
Proof.
  intros RI. unfold updateStatus.
  destruct (parseInt id) as [[i|]|]; trivial.
  destruct (required_text name) as [n|]; trivial.
  destruct (Prisma.status_findUnique_id i db); trivial.
  destruct (match Prisma.status_findUnique_name n db with
            | Some c => negb (status_id c =? i)
            | None => false
            end); trivial.
  destruct (Prisma.status_update now i n db) as [[updated db']|] eqn:U; trivial.
  now apply (integrity_status_update _ _ _ _ _ _ U).
Qed.

Lemma integrity_deleteBoard (id : JsValue) (db : Store) :
  referential_integrity db -> referential_integrity (snd (deleteBoard id db)).
Proof.
  intros RI. unfold deleteBoard.
  destruct (parseInt id) as [[i|]|]; trivial.
  destruct (Prisma.board_findUnique_id i db); trivial.
  destruct (integrity_task_deleteMany i db RI) as [RI1 Free].
  destruct (Prisma.board_delete i _) as [db2|] eqn:D; trivial.
  exact (integrity_board_delete _ _ _ RI1 Free D).
Qed.

Lemma integrity_deleteStatus (now : Z) (id : JsValue) (db : Store) :
  referential_integrity db -> referential_integrity (snd (deleteStatus now id db)).
Proof.
  intros RI. unfold deleteStatus.
  destruct (parseInt id) as [[i|]|]; trivial.
  destruct (Prisma.status_findUnique_id i db); trivial.
  destruct (integrity_task_unlink now i db RI) as [RI1 Free].
  destruct (Prisma.status_delete i _) as [db2|] eqn:D; trivial.
  exact (integrity_status_delete _ _ _ RI1 Free D).
Qed.

Lemma integrity_createTask (now : Z) (body : TaskBody) (db : Store) :
  referential_integrity db -> referential_integrity (snd (createTask now body db)).
Proof.
  intros RI. unfold createTask.
  destruct (required_text (title body)) as [ttl|]; trivial.
  destruct (parseInt (boardId body)) as [[b|]|]; trivial.
  destruct (Prisma.board_findUnique_id b db) as [row|] eqn:FB; trivial.
  destruct (resolveStatus (statusId body) (statusName body) db) as [s|] eqn:RS; trivial.
  destruct (if truthy (description body) then _ else _) as [d|]; trivial.
  apply integrity_task_create; trivial.
  - exact (board_found_present _ _ _ FB).
  - exact (resolveStatus_present _ _ _ _ RS).
Qed.

Lemma integrity_updateTask (now : Z) (id : JsValue) (body : TaskBody) (db : Store) :
  referential_integrity db -> referential_integrity (snd (updateTask now id body db)).
Proof.
  intros RI. unfold updateTask.
  destruct (parseInt id) as [[i|]|]; trivial.
  destruct (Prisma.task_findUnique_id i db); trivial.
  destruct (updateTask_data body db) as [data|] eqn:D; trivial.
  destruct (updateTask_data_checked _ _ _ D) as [Hb Hs].
  destruct (Prisma.task_update now i data db) as [[updated db']|] eqn:U; trivial.
  exact (integrity_task_update _ _ _ _ _ _ Hb Hs U RI).
Qed.

Lemma integrity_deleteTask (id : JsValue) (db : Store) :
  referential_integrity db -> referential_integrity (snd (deleteTask id db)).
Proof.
  intros RI. unfold deleteTask.
  destruct (parseInt id) as [[i|]|]; trivial.
  destruct (Prisma.task_findUnique_id i db); trivial.
  destruct (Prisma.task_delete i db) as [db'|] eqn:D; trivial.
  exact (integrity_task_delete _ _ _ D RI).
Qed.

Lemma integrity_router (now : Z) (r : Request) (db : Store) :
  referential_integrity db -> referential_integrity (snd (router now r db)).
Proof.
  destruct r; simpl;
    auto using integrity_createBoard, integrity_updateBoard, integrity_deleteBoard,
      integrity_createTask, integrity_updateTask, integrity_deleteTask,
      integrity_createStatus, integrity_updateStatus, integrity_deleteStatus.
Qed.

(** C1. In every store reachable from the empty database through the
    controllers, each Task's [boardId] is the id of a Board row and each
    non-null [statusId] is the id of a Status row.  The two cascades keep
    this at every step: after [deleteMany] no Task points at the Board, so
    removing the Board leaves no orphan; after [updateMany] no Task points at
    the Status, so removing the Status leaves no dangling reference. *)
Theorem referential_integrity_reachable :
  (forall db, reachable db -> referential_integrity db) /\
  (forall boardId db,
     referential_integrity db ->
     let db1 := Prisma.task_deleteMany_boardId boardId db in
     referential_integrity db1 /\
     (forall t, In t (tasks db1) -> task_boardId t <> boardId) /\
     (forall db2, Prisma.board_delete boardId db1 = Some db2 ->
                  referential_integrity db2)) /\
  (forall now statusId db,
     referential_integrity db ->
     let db1 := Prisma.task_updateMany_unlink now statusId db in
     referential_integrity db1 /\
     (forall t, In t (tasks db1) -> task_statusId t <> Some statusId) /\
     (forall db2, Prisma.status_delete statusId db1 = Some db2 ->
                  referential_integrity db2)).
Proof.
  split; [|split].
  - induction 1 as [|now r db _ IH].
    + intros t [].
    + now apply integrity_router.
  - intros b db RI db1.
    destruct (integrity_task_deleteMany b db RI) as [RI1 Free].
    split; [exact RI1 | split; [exact Free|]].
    intros db2 D. exact (integrity_board_delete _ _ _ RI1 Free D).
  - intros now s db RI db1.
    destruct (integrity_task_unlink now s db RI) as [RI1 Free].
    split; [exact RI1 | split; [exact Free|]].
    intros db2 D. exact (integrity_status_delete _ _ _ RI1 Free D).
Qed.

Lemma referential_integrity_reachable_witness :
  referential_integrity sprint_store /\
  referential_integrity
    (Prisma.task_deleteMany_boardId 1 sprint_store) /\
  referential_integrity
    (Prisma.task_updateMany_unlink 60 1 sprint_store).
Proof.
  assert (RI : referential_integrity sprint_store).
  { apply (proj1 referential_integrity_reachable).
    repeat apply reachable_request. apply reachable_empty. }
  split; [exact RI | split].
  - exact (proj1 (proj1 (proj2 referential_integrity_reachable) 1 sprint_store RI)).
  - exact (proj1 (proj2 (proj2 referential_integrity_reachable) 60 1 sprint_store RI)).
Defined.

(* ================================================================= *)
(** ** Deleting a Status, deleting a Board *)

Lemma unlink_pointwise (now statusId : Z) (l : list Task) :
  Forall2 (unlinked_from statusId) l
    (map (fun t => if Prisma.refers_to statusId t then Prisma.task_unlink now t else t) l).
Proof.
  induction l as [|t r IH]; simpl; constructor; trivial.
  unfold unlinked_from. destruct (Prisma.refers_to statusId t); simpl; intuition.
Qed.

(** C2. For a Status that exists, [deleteStatus] answers 200 with a
    message (no entity); row by row the Task table is what it was, except
    that the Tasks which pointed at the Status now have a null [statusId]
    (title, description, boardId, id and creation time as before); no Task
    points at the Status any more, and the Status row is gone while the other
    Status rows and the Boards stay. *)
Theorem deleteStatus_unlinks_then_removes
    (now : Z) (id : JsValue) (statusId : Z) (row : Status) (db : Store) :
  parseInt id = Normal (Some statusId) ->
  Prisma.status_findUnique_id statusId db = Some row ->
  exists db',
    deleteStatus now id db
      = (Respond 200 (JMessage "Status deleted and tasks unlinked"), db') /\
    Forall2 (unlinked_from statusId) (tasks db) (tasks db') /\
    (forall t, In t (tasks db') -> task_statusId t <> Some statusId) /\
    Prisma.status_findUnique_id statusId db' = None /\
    (forall s, In s (statuses db') <-> In s (statuses db) /\ status_id s <> statusId) /\
    boards db' = boards db.
Proof.
  intros P F. unfold deleteStatus. rewrite P, F.
  unfold Prisma.status_delete.
  replace (Prisma.status_findUnique_id statusId (Prisma.task_updateMany_unlink now statusId db))
    with (Some row) by (symmetry; exact F).
  eexists. split; [reflexivity|]. simpl.
  split; [apply unlink_pointwise|].
  split; [|split; [|split; [|reflexivity]]].
  - intros t Ht. apply in_map_iff in Ht as (x & <- & Hx).
    destruct (Prisma.refers_to statusId x) eqn:E; [discriminate|].
    unfold Prisma.refers_to in E. destruct (task_statusId x); [|discriminate].
    intros [= ->]. rewrite Z.eqb_refl in E. discriminate.
  - apply (find_key_removed status_id).
  - intros s. rewrite filter_In. destruct (status_id s =? statusId) eqn:E; simpl.
    + split; [intros [_ H]; discriminate | intros [_ H]; lia].
    + split; intros [H _]; (split; [exact H|]); [lia | reflexivity].
Qed.

Lemma deleteStatus_unlinks_then_removes_witness :
  exists db',
    deleteStatus 60 (JsString (lit "1")) sprint_store
      = (Respond 200 (JMessage "Status deleted and tasks unlinked"), db') /\
    Forall2 (unlinked_from 1) (tasks sprint_store) (tasks db') /\
    (forall t, In t (tasks db') -> task_statusId t <> Some 1) /\
    Prisma.status_findUnique_id 1 db' = None /\
    (forall s, In s (statuses db') <-> In s (statuses sprint_store) /\ status_id s <> 1) /\
    boards db' = boards sprint_store.
Proof.
  apply (deleteStatus_unlinks_then_removes 60 (JsString (lit "1")) 1
           (mkStatus 1 (lit "TODO") 20 20) sprint_store); reflexivity.
Defined.

(** C3. For a Board that exists, [deleteBoard] answers 200 with a
    message; afterwards the Task table is the old one without the rows of
    that Board (none is left with this [boardId], the Tasks of other Boards
    are the same rows in the same order), the Board row is gone while the
    other Boards stay, and the Status table is untouched. *)
Theorem deleteBoard_cascades
    (id : JsValue) (boardId : Z) (row : Board) (db : Store) :
  parseInt id = Normal (Some boardId) ->
  Prisma.board_findUnique_id boardId db = Some row ->
  exists db',
    deleteBoard id db
      = (Respond 200 (JMessage "Board and its tasks deleted successfully"), db') /\
    (forall t, In t (tasks db') -> task_boardId t <> boardId) /\
    tasks db' = filter (fun t => negb (task_boardId t =? boardId)) (tasks db) /\
    (forall t, In t (tasks db) -> task_boardId t <> boardId -> In t (tasks db')) /\
    Prisma.board_findUnique_id boardId db' = None /\
    (forall b, In b (boards db') <-> In b (boards db) /\ board_id b <> boardId) /\
    statuses db' = statuses db.
Proof.
  intros P F. unfold deleteBoard. rewrite P, F.
  unfold Prisma.board_delete.
  replace (Prisma.board_findUnique_id boardId (Prisma.task_deleteMany_boardId boardId db))
    with (Some row) by (symmetry; exact F).
  eexists. split; [reflexivity|]. simpl.
  split; [|split; [reflexivity|split; [|split; [|split; [|reflexivity]]]]].
  - intros t Ht. apply filter_In in Ht as [_ Ht].
    destruct (task_boardId t =? boardId) eqn:E; [discriminate | lia].
  - intros t Ht Hb. apply filter_In. split; trivial.
    destruct (task_boardId t =? boardId) eqn:E; trivial. lia.
  - apply (find_key_removed board_id).
  - intros b. rewrite filter_In. destruct (board_id b =? boardId) eqn:E; simpl.
    + split; [intros [_ H]; discriminate | intros [_ H]; lia].
    + split; intros [H _]; (split; [exact H|]); [lia | reflexivity].
Qed.

Lemma deleteBoard_cascades_witness :
  exists db',
    deleteBoard (JsNumber 1) sprint_store
      = (Respond 200 (JMessage "Board and its tasks deleted successfully"), db') /\
    (forall t, In t (tasks db') -> task_boardId t <> 1) /\
    tasks db' = filter (fun t => negb (task_boardId t =? 1)) (tasks sprint_store) /\
    (forall t, In t (tasks sprint_store) -> task_boardId t <> 1 -> In t (tasks db')) /\
    Prisma.board_findUnique_id 1 db' = None /\
    (forall b, In b (boards db') <-> In b (boards sprint_store) /\ board_id b <> 1) /\
    statuses db' = statuses sprint_store.
Proof.
  apply (deleteBoard_cascades (JsNumber 1) 1 (mkBoard 1 (lit "Sprint 1") 10 10)
           sprint_store); reflexivity.
Defined.

(* ================================================================= *)
(** ** Status resolution *)



(* ================================================================= *)
(** ** Keys and names stay consistent *)

Section Keys.

Context {A : Type}.
Variable key : A -> Z.

Lemma fresh_snoc (seq : Z) (l : list A) (a : A) :
  Forall (fun x => key x < seq) l -> key a = seq ->
  Forall (fun x => key x < seq + 1) (l ++ [a]).
Proof.
  intros F E. apply Forall_app. split.
  - eapply Forall_impl; [|exact F]. simpl. intros; lia.
  - constructor; [lia | constructor].
Qed.

Lemma fresh_not_in (seq : Z) (l : list A) :
  Forall (fun x => key x < seq) l -> ~ In seq (map key l).
Proof.
  intros F H. apply in_map_iff in H as (x & E & Hx).
  rewrite Forall_forall in F. apply F in Hx. lia.
Qed.

Lemma Forall_filter_keep (P : A -> Prop) (p : A -> bool) (l : list A) :
  Forall P l -> Forall P (filter p l).
Proof.
  rewrite !Forall_forall. intros F x Hx. apply filter_In in Hx as [Hx _]. auto.
Qed.

Lemma Forall_map_change (P : A -> Prop) (change : A -> A) (i : Z) (l : list A) :
  (forall x, P x -> P (change x)) ->
  Forall P l -> Forall P (map (fun x => if key x =? i then change x else x) l).
Proof.
  intros C F. apply Forall_map. eapply Forall_impl; [|exact F].
  intros x Px. simpl. destruct (key x =? i); auto.
Qed.

Lemma unique_snoc (seq : Z) (l : list A) (a : A) :
  Forall (fun x => key x < seq) l -> key a = seq ->
  NoDup (map key l) -> NoDup (map key (l ++ [a])).
Proof.
  intros F E N. apply NoDup_map_snoc; trivial.
  rewrite E. now apply fresh_not_in.
Qed.

Variable name : A -> jsstring.

Lemma find_name_None (n : jsstring) (l : list A) :
  find (fun x => jsstring_eqb (name x) n) l = None <->
  (forall x, In x l -> name x <> n).
Proof.
  split.
  - intros H x Hx. apply (find_none _ _ H) in Hx. now apply jsstring_eqb_neq.
  - intros H. destruct (find _ l) as [a|] eqn:F; trivial.
    apply find_some in F as [F1 F2]. apply jsstring_eqb_eq in F2.
    now apply H in F1.
Qed.

Lemma find_name_Some (n : jsstring) (l : list A) (a : A) :
  find (fun x => jsstring_eqb (name x) n) l = Some a -> In a l /\ name a = n.
Proof.
  intros F. apply find_some in F as [F1 F2]. now apply jsstring_eqb_eq in F2.
Qed.

Lemma names_snoc (l : list A) (a : A) :
  find (fun x => jsstring_eqb (name x) (name a)) l = None ->
  NoDup (map name l) -> NoDup (map name (l ++ [a])).
Proof.
  intros F N. apply NoDup_map_snoc; trivial.
  intros H. apply in_map_iff in H as (x & E & Hx).
  now apply (proj1 (find_name_None _ _) F x).
Qed.

Lemma name_holder_unique (l : list A) (x y : A) :
  NoDup (map name l) -> In x l -> In y l -> name x = name y -> x = y.
Proof.
  induction l as [|a r IH]; simpl; [intros _ []|].
  intros N Hx Hy E. inversion N as [|? ? N1 N2]; subst.
  destruct Hx as [-> | Hx], Hy as [-> | Hy]; trivial.
  - exfalso. apply N1. rewrite E. now apply in_map.
  - exfalso. apply N1. rewrite <- E. now apply in_map.
  - now apply IH.
Qed.

End Keys.

Lemma consistent_board_create (now : Z) (n : jsstring) (db : Store) :
  consistent db -> trimmed_name n ->
  Prisma.board_findUnique_name n db = None ->
  consistent (snd (Prisma.board_create now n db)).
Proof.
  intros [] T F. constructor; simpl; trivial.
  - now apply (fresh_snoc board_id).
  - now apply (unique_snoc board_id (board_seq db)).
  - now apply (names_snoc board_name).
  - apply Forall_app. split; trivial. constructor; [exact T | constructor].
Qed.

Lemma consistent_status_create (now : Z) (n : jsstring) (db : Store) :
  consistent db -> trimmed_name n ->
  Prisma.status_findUnique_name n db = None ->
  consistent (snd (Prisma.status_create now n db)).
Proof.
  intros [] T F. constructor; simpl; trivial.
  - now apply (fresh_snoc status_id).
  - now apply (unique_snoc status_id (status_seq db)).
  - now apply (names_snoc status_name).
  - apply Forall_app. split; trivial. constructor; [exact T | constructor].
Qed.

Lemma consistent_board_update (now i : Z) (n : jsstring) (db db' : Store) (b : Board) :
  consistent db -> trimmed_name n ->
  (forall x, In x (boards db) -> board_name x = n -> board_id x = i) ->
  Prisma.board_update now i n db = Some (b, db') ->
  consistent db'.
Proof.
  intros [] T O. unfold Prisma.board_update.
  destruct (Prisma.board_findUnique_id i db) as [found|]; [|discriminate].
  intros [= _ <-]. constructor; simpl; trivial.
  - now apply (Forall_map_change board_id).
  - now rewrite (map_change_keys board_id).
  - now apply (NoDup_names_change board_id (Prisma.board_rename now n)
                 board_name n (fun _ => eq_refl)).
  - now apply (Forall_map_change board_id).
Qed.

Lemma consistent_status_update (now i : Z) (n : jsstring) (db db' : Store) (s : Status) :
  consistent db -> trimmed_name n ->
  (forall x, In x (statuses db) -> status_name x = n -> status_id x = i) ->
  Prisma.status_update now i n db = Some (s, db') ->
  consistent db'.
Proof.
  intros [] T O. unfold Prisma.status_update.
  destruct (Prisma.status_findUnique_id i db) as [found|]; [|discriminate].
  intros [= _ <-]. constructor; simpl; trivial.
  - now apply (Forall_map_change status_id).
  - now rewrite (map_change_keys status_id).
  - now apply (NoDup_names_change status_id (Prisma.status_rename now n)
                 status_name n (fun _ => eq_refl)).
  - now apply (Forall_map_change status_id).
Qed.

Lemma consistent_board_delete (i : Z) (db db' : Store) :
  Prisma.board_delete i db = Some db' -> consistent db -> consistent db'.
Proof.
  unfold Prisma.board_delete.
  destruct (Prisma.board_findUnique_id i db) as [found|]; [|discriminate].
  intros [= <-] []. constructor; simpl; trivial;
    auto using Forall_filter_keep, NoDup_column_filter.
Qed.

Lemma consistent_status_delete (i : Z) (db db' : Store) :
  Prisma.status_delete i db = Some db' -> consistent db -> consistent db'.
Proof.
  unfold Prisma.status_delete.
  destruct (Prisma.status_findUnique_id i db) as [found|]; [|discriminate].
  intros [= <-] []. constructor; simpl; trivial;
    auto using Forall_filter_keep, NoDup_column_filter.
Qed.

Lemma consistent_task_create (now : Z) (ttl : jsstring) (d : option jsstring)
    (b : Z) (s : option Z) (db : Store) :
  consistent db -> consistent (snd (Prisma.task_create now ttl d b s db)).
Proof.
  intros []. constructor; simpl; trivial.
  - now apply (fresh_snoc task_id).
  - now apply (unique_snoc task_id (task_seq db)).
Qed.

Lemma consistent_task_update (now i : Z) (data : TaskUpdateInput)
    (db db' : Store) (t : Task) :
  Prisma.task_update now i data db = Some (t, db') -> consistent db -> consistent db'.
Proof.
  unfold Prisma.task_update.
  destruct (Prisma.task_findUnique_id i db) as [found|]; [|discriminate].
  intros [= _ <-] []. constructor; simpl; trivial.
  - now apply (Forall_map_change task_id).
  - now rewrite (map_change_keys task_id).
Qed.

Lemma consistent_task_delete (i : Z) (db db' : Store) :
  Prisma.task_delete i db = Some db' -> consistent db -> consistent db'.
Proof.
  unfold Prisma.task_delete.
  destruct (Prisma.task_findUnique_id i db) as [found|]; [|discriminate].
  intros [= <-] []. constructor; simpl; trivial;
    auto using Forall_filter_keep, NoDup_column_filter.
Qed.

Lemma consistent_task_deleteMany (i : Z) (db : Store) :
  consistent db -> consistent (Prisma.task_deleteMany_boardId i db).
Proof.
  intros []. constructor; simpl; trivial;
    auto using Forall_filter_keep, NoDup_column_filter.
Qed.

Lemma consistent_task_unlink (now i : Z) (db : Store) :
  consistent db -> consistent (Prisma.task_updateMany_unlink now i db).
Proof.
  intros []. constructor; simpl; trivial.
  - apply Forall_map. eapply Forall_impl; [|eassumption].
    intros t Ht. simpl. now destruct (Prisma.refers_to i t).
  - rewrite map_map.
    erewrite map_ext; [eassumption|].
    intros t. simpl. now destruct (Prisma.refers_to i t).
Qed.

(** The two forms of the duplicate-name check on update. *)
Lemma board_no_conflict (n : jsstring) (i : Z) (db : Store) :
  Prisma.board_findFirst_name_not_id n i db = None <->
  (forall x, In x (boards db) -> board_name x = n -> board_id x = i).
Proof.
  unfold Prisma.board_findFirst_name_not_id. split.
  - intros F x Hx E. apply (find_none _ _ F) in Hx.
    apply jsstring_eqb_eq in E. rewrite E in Hx. simpl in Hx.
    destruct (board_id x =? i) eqn:Ei; [lia | discriminate].
  - intros O. destruct (find _ (boards db)) as [c|] eqn:F; trivial.
    apply find_some in F as [F1 F2]. apply andb_true_iff in F2 as [F2 F3].
    apply jsstring_eqb_eq in F2. apply (O c F1) in F2.
    rewrite F2, Z.eqb_refl in F3. discriminate.
Qed.

Lemma status_no_conflict (n : jsstring) (i : Z) (db : Store) :
  NoDup (map status_name (statuses db)) ->
  status_conflict n i db = false <->
  (forall x, In x (statuses db) -> status_name x = n -> status_id x = i).
Proof.
  intros N. unfold status_conflict, Prisma.status_findUnique_name. split.
  - destruct (find _ (statuses db)) as [c|] eqn:F.
    + apply find_name_Some in F as [F1 F2]. intros C x Hx E.
      assert (x = c) by (apply (name_holder_unique status_name (statuses db));
                         trivial; congruence).
      subst x. destruct (status_id c =? i) eqn:Ei; [lia | discriminate].
    + intros _ x Hx E. exfalso.
      exact (proj1 (find_name_None status_name n (statuses db)) F x Hx E).
  - intros O. destruct (find _ (statuses db)) as [c|] eqn:F; trivial.
    apply find_name_Some in F as [F1 F2]. rewrite (O c F1 F2), Z.eqb_refl.
    reflexivity.
Qed.

Lemma consistent_createBoard (now : Z) (name : JsValue) (db : Store) :
  consistent db -> consistent (snd (createBoard now name db)).
Proof.
  intros C. unfold createBoard.
  destruct (required_text name) as [n|] eqn:R; trivial.
  destruct (Prisma.board_findUnique_name n db) eqn:F; trivial.
  apply consistent_board_create; trivial. exact (required_text_trimmed _ _ R).
Qed.

Lemma consistent_createStatus (now : Z) (name : JsValue) (db : Store) :
  consistent db -> consistent (snd (createStatus now name db)).
Proof.
  intros C. unfold createStatus.
  destruct (required_text name) as [n|] eqn:R; trivial.
  destruct (Prisma.status_findUnique_name n db) eqn:F; trivial.
  apply consistent_status_create; trivial. exact (required_text_trimmed _ _ R).
Qed.

Lemma consistent_updateBoard (now : Z) (id name : JsValue) (db : Store) :
  consistent db -> consistent (snd (updateBoard now id name db)).
Proof.
  intros C. unfold updateBoard.
  destruct (parseInt id) as [[i|]|]; trivial.
  destruct (required_text name) as [n|] eqn:R; trivial.
  destruct (Prisma.board_findUnique_id i db); trivial.
  destruct (Prisma.board_findFirst_name_not_id n i db) eqn:F; trivial.
  destruct (Prisma.board_update now i n db) as [[updated db']|] eqn:U; trivial.
  apply (consistent_board_update now i n db db' updated); trivial.
  - exact (required_text_trimmed _ _ R).
  - now apply board_no_conflict.
Qed.

Lemma consistent_updateStatus (now : Z) (id name : JsValue) (db : Store) :
  consistent db -> consistent (snd (updateStatus now id name db)).
Proof.
  intros C. unfold updateStatus.
  destruct (parseInt id) as [[i|]|]; trivial.
  destruct (required_text name) as [n|] eqn:R; trivial.
  destruct (Prisma.status_findUnique_id i db); trivial.
  fold (status_conflict n i db).
  destruct (status_conflict n i db) eqn:F; trivial.
  destruct (Prisma.status_update now i n db) as [[updated db']|] eqn:U; trivial.
  apply (consistent_status_update now i n db db' updated); trivial.
  - exact (required_text_trimmed _ _ R).
  - apply status_no_conflict; trivial. now destruct C.
Qed.

Lemma consistent_router (now : Z) (r : Request) (db : Store) :
  consistent db -> consistent (snd (router now r db)).
Proof.
  intros C. destruct r; simpl; trivial.
  - now apply consistent_createBoard.
  - now apply consistent_updateBoard.
  - unfold deleteBoard.
    destruct (parseInt id) as [[i|]|]; trivial.
    destruct (Prisma.board_findUnique_id i db); trivial.
    pose proof (consistent_task_deleteMany i db C) as C1.
    destruct (Prisma.board_delete i _) as [db2|] eqn:D; trivial.
    exact (consistent_board_delete _ _ _ D C1).
  - unfold createTask.
    destruct (required_text (title body)); trivial.
    destruct (parseInt (boardId body)) as [[b|]|]; trivial.
    destruct (Prisma.board_findUnique_id b db); trivial.
    destruct (resolveStatus _ _ db); trivial.
    destruct (if truthy (description body) then _ else _); trivial.
    now apply consistent_task_create.
  - unfold updateTask.
    destruct (parseInt id) as [[i|]|]; trivial.
    destruct (Prisma.task_findUnique_id i db); trivial.
    destruct (updateTask_data body db) as [data|]; trivial.
    destruct (Prisma.task_update now i data db) as [[updated db']|] eqn:U; trivial.
    exact (consistent_task_update _ _ _ _ _ _ U C).
  - unfold deleteTask.
    destruct (parseInt id) as [[i|]|]; trivial.
    destruct (Prisma.task_findUnique_id i db); trivial.
    destruct (Prisma.task_delete i db) as [db'|] eqn:D; trivial.
    exact (consistent_task_delete _ _ _ D C).
  - now apply consistent_createStatus.
  - now apply consistent_updateStatus.
  - unfold deleteStatus.
    destruct (parseInt id) as [[i|]|]; trivial.
    destruct (Prisma.status_findUnique_id i db); trivial.
    pose proof (consistent_task_unlink now i db C) as C1.
    destruct (Prisma.status_delete i _) as [db2|] eqn:D; trivial.
    exact (consistent_status_delete _ _ _ D C1).
Qed.

Lemma consistent_reachable (db : Store) : reachable db -> consistent db.
Proof.
  induction 1 as [|now r db _ IH].
  - constructor; simpl; constructor.
  - now apply consistent_router.
Qed.

(* ================================================================= *)
(** ** Creating Statuses and Boards *)









(* ================================================================= *)
(** ** Renaming a Board or a Status to the name it has *)

Lemma updateBoard_same_name (now : Z) (id : JsValue) (s : jsstring)
    (b : Board) (db : Store) :
  parseInt id = Normal (Some (board_id b)) ->
  Prisma.board_findUnique_id (board_id b) db = Some b ->
  board_name b <> [] -> trim s = board_name b ->
  (forall x, In x (boards db) -> board_name x = board_name b -> board_id x = board_id b) ->
  updateBoard now id (JsString s) db
  = (Respond 200 (JBoard (Prisma.board_rename now (board_name b) b)),
     with_boards
       (map (fun x => if board_id x =? board_id b
                      then Prisma.board_rename now (board_name b) x else x)
            (boards db)) db).
Proof.
  intros P F NE T O. unfold updateBoard. rewrite P, required_text_string.
  assert (B : blank s = false).
  { destruct (blank s) eqn:B; trivial. apply trim_blank in B. congruence. }
  rewrite B, T, F.
  rewrite (proj2 (board_no_conflict (board_name b) (board_id b) db) O).
  unfold Prisma.board_update. now rewrite F.
Qed.

Lemma updateStatus_same_name (now : Z) (id : JsValue) (s : jsstring)
    (r : Status) (db : Store) :
  parseInt id = Normal (Some (status_id r)) ->
  Prisma.status_findUnique_id (status_id r) db = Some r ->
  status_name r <> [] -> trim s = status_name r ->
  NoDup (map status_name (statuses db)) ->
  updateStatus now id (JsString s) db
  = (Respond 200 (JStatus (Prisma.status_rename now (status_name r) r)),
     with_statuses
       (map (fun x => if status_id x =? status_id r
                      then Prisma.status_rename now (status_name r) x else x)
            (statuses db)) db).
Proof.
  intros P F NE T N. unfold updateStatus. rewrite P, required_text_string.
  assert (B : blank s = false).
  { destruct (blank s) eqn:B; trivial. apply trim_blank in B. congruence. }
  rewrite B, T, F. fold (status_conflict (status_name r) (status_id r) db).
  assert (C : status_conflict (status_name r) (status_id r) db = false).
  { apply status_no_conflict; trivial. intros x Hx E.
    apply find_key_Some in F as [F _].
    now rewrite (name_holder_unique status_name (statuses db) x r N Hx F E). }
  rewrite C. unfold Prisma.status_update. now rewrite F.
Qed.

Lemma rename_same_names {A : Type} (key : A -> Z) (name : A -> jsstring)
    (change : A -> A) (i : Z) (l : list A) :
  (forall x, In x l -> key x = i -> name (change x) = name x) ->
  map name (map (fun x => if key x =? i then change x else x) l) = map name l.
Proof.
  intros H. rewrite map_map. apply map_ext_in. intros x Hx.
  destruct (key x =? i) eqn:E; trivial. apply H; trivial. lia.
Qed.

(** C10. In a reachable store, [updateBoard] called on a Board with the
    name that Board has (as stored, or padded with white space) answers 200
    with that Board, still under its id and name, and no name in the table
    changes; the same holds of [updateStatus].  The two answers "Another
    ... with this name already exists" are only given when a row with a
    different id holds the trimmed name. *)
Theorem rename_to_own_name_succeeds :
  (forall now id s b db,
     reachable db -> In b (boards db) ->
     parseInt id = Normal (Some (board_id b)) ->
     s = board_name b \/ trim s = board_name b ->
     exists updated db',
       updateBoard now id (JsString s) db = (Respond 200 (JBoard updated), db') /\
       board_id updated = board_id b /\ board_name updated = board_name b /\
       Prisma.board_findUnique_id (board_id b) db' = Some updated /\
       map board_name (boards db') = map board_name (boards db)) /\
  (forall now id s r db,
     reachable db -> In r (statuses db) ->
     parseInt id = Normal (Some (status_id r)) ->
     s = status_name r \/ trim s = status_name r ->
     exists updated db',
       updateStatus now id (JsString s) db = (Respond 200 (JStatus updated), db') /\
       status_id updated = status_id r /\ status_name updated = status_name r /\
       Prisma.status_findUnique_id (status_id r) db' = Some updated /\
       map status_name (statuses db') = map status_name (statuses db)) /\
  (forall now id name db db',
     updateBoard now id name db
       = (Respond 400 (JError "Another board with this name already exists"), db') ->
     exists i n x,
       parseInt id = Normal (Some i) /\ required_text name = Some n /\
       In x (boards db) /\ board_name x = n /\ board_id x <> i) /\
  (forall now id name db db',
     updateStatus now id name db
       = (Respond 400 (JError "Another status with this name already exists"), db') ->
     exists i n x,
       parseInt id = Normal (Some i) /\ required_text name = Some n /\
       In x (statuses db) /\ status_name x = n /\ status_id x <> i).
Proof.
  split; [|split; [|split]].
  - intros now id s b db R Hb P Hs.
    apply consistent_reachable in R. destruct R.
    assert (T : trimmed_name (board_name b)).
    { rewrite Forall_forall in board_names_trimmed0. auto. }
    destruct T as [NE T].
    assert (E : trim s = board_name b) by (destruct Hs; congruence).
    assert (F := find_key_unique board_id (boards db) b board_ids_unique0 Hb).
    assert (O : forall x, In x (boards db) -> board_name x = board_name b ->
                          board_id x = board_id b).
    { intros x Hx Ex.
      now rewrite (name_holder_unique board_name (boards db) x b
                     board_names_unique0 Hx Hb Ex). }
    eexists. eexists. split.
    + exact (updateBoard_same_name now id s b db P F NE E O).
    + simpl. split; [reflexivity | split; [reflexivity | split]].
      * exact (find_map_change board_id (Prisma.board_rename now (board_name b))
                 (fun _ => eq_refl) _ _ _ F).
      * apply (rename_same_names board_id). intros x Hx Ex. simpl.
        pose proof (find_key_unique board_id (boards db) x board_ids_unique0 Hx) as Fx.
        rewrite Ex in Fx. congruence.
  - intros now id s r db R Hr P Hs.
    apply consistent_reachable in R. destruct R.
    assert (T : trimmed_name (status_name r)).
    { rewrite Forall_forall in status_names_trimmed0. auto. }
    destruct T as [NE T].
    assert (E : trim s = status_name r) by (destruct Hs; congruence).
    assert (F := find_key_unique status_id (statuses db) r status_ids_unique0 Hr).
    eexists. eexists. split.
    + exact (updateStatus_same_name now id s r db P F NE E status_names_unique0).
    + simpl. split; [reflexivity | split; [reflexivity | split]].
      * exact (find_map_change status_id (Prisma.status_rename now (status_name r))
                 (fun _ => eq_refl) _ _ _ F).
      * apply (rename_same_names status_id). intros x Hx Ex. simpl.
        pose proof (find_key_unique status_id (statuses db) x status_ids_unique0 Hx) as Fx.
        rewrite Ex in Fx. congruence.
  - intros now id name db db'. unfold updateBoard.
    destruct (parseInt id) as [[i|]|]; try discriminate.
    destruct (required_text name) as [n|]; try discriminate.
    destruct (Prisma.board_findUnique_id i db); try discriminate.
    destruct (Prisma.board_findFirst_name_not_id n i db) as [c|] eqn:F.
    + intros _. exists i, n, c. apply find_some in F as [F1 F2].
      apply andb_true_iff in F2 as [F2 F3]. apply jsstring_eqb_eq in F2.
      repeat split; trivial. destruct (board_id c =? i) eqn:E; [discriminate | lia].
    + destruct (Prisma.board_update now i n db) as [[u d]|]; discriminate.
  - intros now id name db db'. unfold updateStatus.
    destruct (parseInt id) as [[i|]|]; try discriminate.
    destruct (required_text name) as [n|]; try discriminate.
    destruct (Prisma.status_findUnique_id i db); try discriminate.
    destruct (Prisma.status_findUnique_name n db) as [c|] eqn:F.
    + destruct (status_id c =? i) eqn:E; simpl.
      * destruct (Prisma.status_update now i n db) as [[u d]|]; discriminate.
      * intros _. exists i, n, c. apply find_name_Some in F as [F1 F2].
        repeat split; trivial. lia.
    + destruct (Prisma.status_update now i n db) as [[u d]|]; discriminate.
Qed.

Lemma rename_to_own_name_succeeds_witness :
  (exists updated db',
     updateBoard 80 (JsString (lit "2")) (JsString (lit "Backlog")) sprint_store
       = (Respond 200 (JBoard updated), db') /\
     board_id updated = 2 /\ board_name updated = lit "Backlog" /\
     Prisma.board_findUnique_id 2 db' = Some updated /\
     map board_name (boards db') = map board_name (boards sprint_store)) /\
  (exists updated db',
     updateStatus 80 (JsNumber 1) (JsString (lit " TODO")) sprint_store
       = (Respond 200 (JStatus updated), db') /\
     status_id updated = 1 /\ status_name updated = lit "TODO" /\
     Prisma.status_findUnique_id 1 db' = Some updated /\
     map status_name (statuses db') = map status_name (statuses sprint_store)) /\
  (exists i n x,
     parseInt (JsString (lit "2")) = Normal (Some i) /\
     required_text (JsString (lit "Sprint 1")) = Some n /\
     In x (boards sprint_store) /\ board_name x = n /\ board_id x <> i).
Proof.
  pose proof rename_to_own_name_succeeds as (B & S & CB & _).
  split; [|split].
  - apply (B 80 (JsString (lit "2")) (lit "Backlog") (mkBoard 2 (lit "Backlog") 40 40)
             sprint_store).
    + repeat apply reachable_request. apply reachable_empty.
    + right. left. reflexivity.
    + reflexivity.
    + left. reflexivity.
  - apply (S 80 (JsNumber 1) (lit " TODO") (mkStatus 1 (lit "TODO") 20 20) sprint_store).
    + repeat apply reachable_request. apply reachable_empty.
    + left. reflexivity.
    + reflexivity.
    + right. reflexivity.
  - apply (CB 80 (JsString (lit "2")) (JsString (lit "Sprint 1")) sprint_store
              sprint_store).
    reflexivity.
Defined.

(* ================================================================= *)
(** ** Listing the Boards *)

Lemma Forall_rearranged {A : Type} (P : A -> Prop) (l l' : list A) :
  Permutation l l' -> Forall P l -> Forall P l'.
Proof.
  rewrite !Forall_forall. intros E F x Hx. apply F.
  apply Permutation_in with l'; [now symmetry | exact Hx].
Qed.

Lemma StronglySorted_weaken {A : Type} (R R' : A -> A -> Prop) (l : list A) :
  (forall x y, R x y -> R' x y) -> StronglySorted R l -> StronglySorted R' l.
Proof.
  intros W. induction 1 as [|x r S IH F]; constructor; trivial.
  eapply Forall_impl; [|exact F]. auto.
Qed.

Section OrderBy.

Context {A : Type}.
Variable le : A -> A -> bool.
Hypothesis le_total : forall x y, le x y = true \/ le y x = true.
Hypothesis le_trans : forall x y z, le x y = true -> le y z = true -> le x z = true.

Lemma insert_by_perm (x : A) (l : list A) : Permutation (insert_by le x l) (x :: l).
Proof.
  induction l as [|y r IH]; simpl.
  - reflexivity.
  - destruct (le x y).
    + reflexivity.
    + rewrite IH. apply perm_swap.
Qed.

Lemma sort_by_perm (l : list A) : Permutation (sort_by le l) l.
Proof.
  induction l as [|x r IH]; simpl.
  - reflexivity.
  - rewrite insert_by_perm. now constructor.
Qed.

Lemma insert_by_sorted (x : A) (l : list A) :
  StronglySorted (fun a b => le a b = true) l ->
  StronglySorted (fun a b => le a b = true) (insert_by le x l).
Proof.
  induction 1 as [|y r S IH F]; simpl.
  - repeat constructor.
  - destruct (le x y) eqn:E.
    + constructor; [now constructor|].
      constructor; trivial.
      eapply Forall_impl; [|exact F]. intros z. now apply le_trans.
    + constructor; trivial.
      apply (Forall_rearranged _ (x :: r)).
      * symmetry. apply insert_by_perm.
      * constructor; trivial. destruct (le_total x y); congruence.
Qed.

Lemma sort_by_sorted (l : list A) :
  StronglySorted (fun a b => le a b = true) (sort_by le l).
Proof.
  induction l as [|x r IH]; simpl.
  - constructor.
  - now apply insert_by_sorted.
Qed.

End OrderBy.

(** C8. [getBoards] answers 200 with a list that holds every Board row
    once (it is a rearrangement of the table), in which no Board comes
    before one created later, and in which each Board carries exactly the
    Task rows whose [boardId] is its id; the store is not changed. *)
Theorem getBoards_lists_newest_first_with_tasks (db : Store) :
  exists l,
    getBoards db = (Respond 200 (JBoards l), db) /\
    Permutation (map fst l) (boards db) /\
    StronglySorted
      (fun x y => board_createdAt (fst y) <= board_createdAt (fst x)) l /\
    Forall (fun p => snd p = filter (fun t => task_boardId t =? board_id (fst p))
                                    (tasks db)) l /\
    (forall b ts t, In (b, ts) l ->
       (In t ts <-> In t (tasks db) /\ task_boardId t = board_id b)).
Proof.
  exists (Prisma.board_findMany_include_tasks_desc db).
  unfold Prisma.board_findMany_include_tasks_desc.
  set (joined := map (fun b => (b, Prisma.tasks_of b db)) (boards db)).
  assert (P : Permutation (sort_by Prisma.newer_first joined) joined)
    by apply sort_by_perm.
  assert (J : Forall (fun p => snd p = filter (fun t => task_boardId t =? board_id (fst p))
                                              (tasks db)) joined).
  { apply Forall_map. apply Forall_forall. reflexivity. }
  split; [reflexivity | split; [|split; [|split]]].
  - rewrite P. unfold joined. rewrite map_map. simpl. now rewrite map_id.
  - apply (StronglySorted_weaken (fun x y => Prisma.newer_first x y = true)).
    + intros x y H. unfold Prisma.newer_first in H. lia.
    + apply sort_by_sorted.
      * intros x y. unfold Prisma.newer_first. lia.
      * intros x y z. unfold Prisma.newer_first. lia.
  - apply (Forall_rearranged _ joined); [now symmetry | exact J].
  - intros b ts t H.
    assert (Hj : In (b, ts) joined) by (eapply Permutation_in; eassumption).
    rewrite Forall_forall in J. apply J in Hj. simpl in Hj. subst ts.
    rewrite filter_In. split; intros [H1 H2]; (split; [exact H1 | lia]).
Qed.

Lemma getBoards_lists_newest_first_with_tasks_witness :
  exists l,
    getBoards sprint_store = (Respond 200 (JBoards l), sprint_store) /\
    Permutation (map fst l) (boards sprint_store) /\
    StronglySorted
      (fun x y => board_createdAt (fst y) <= board_createdAt (fst x)) l /\
    Forall (fun p => snd p = filter (fun t => task_boardId t =? board_id (fst p))
                                    (tasks sprint_store)) l /\
    (forall b ts t, In (b, ts) l ->
       (In t ts <-> In t (tasks sprint_store) /\ task_boardId t = board_id b)).
Proof. exact (getBoards_lists_newest_first_with_tasks sprint_store). Defined.

(* ================================================================= *)
(** ** Updating a Task *)

Lemma data_for_title_Continue (v : JsValue) (x : option jsstring) :
  data_for_title v = Continue x ->
  (v = JsUndefined /\ x = None) \/
  (exists s, v = JsString s /\ blank s = false /\ x = Some (trim s)).
Proof.
  unfold data_for_title. destruct (is_undefined v) eqn:U; simpl.
  - intros [= <-]. left. destruct v; try discriminate. auto.
  - destruct (required_text v) as [n|] eqn:R; [|discriminate].
    intros [= <-]. right. apply required_text_Some in R as (s & -> & B & ->).
    now exists s.
Qed.

Lemma data_for_description_Continue (v : JsValue) (x : option (option jsstring)) :
  data_for_description v = Continue x ->
  (v = JsUndefined /\ x = None) \/
  (v = JsNull /\ x = Some None) \/
  (v <> JsUndefined /\ v <> JsNull /\
   exists s, ToString v = Normal s /\ x = Some (Some (trim s))).
Proof.
  unfold data_for_description. destruct (is_undefined v) eqn:U; simpl.
  - intros [= <-]. left. destruct v; try discriminate. auto.
  - destruct (is_null v) eqn:N.
    + intros [= <-]. right. left. destruct v; try discriminate. auto.
    + destruct (ToString v) as [s|] eqn:E; [|discriminate].
      intros [= <-]. right. right.
      split; [now intros -> | split; [now intros -> | now exists s]].
Qed.

Lemma data_for_board_Continue (v : JsValue) (db : Store) (x : option Z) :
  data_for_board v db = Continue x ->
  (v = JsUndefined /\ x = None) \/
  (exists p, parseInt v = Normal (Some p) /\ x = Some p).
Proof.
  unfold data_for_board. destruct (is_undefined v) eqn:U; simpl.
  - intros [= <-]. left. destruct v; try discriminate. auto.
  - destruct (parseInt v) as [[p|]|]; try discriminate.
    destruct (Prisma.board_findUnique_id p db); [|discriminate].
    intros [= <-]. right. now exists p.
Qed.

Lemma data_for_status_Continue (sid sname : JsValue) (db : Store)
    (x : option (option Z)) :
  data_for_status sid sname db = Continue x ->
  (sid = JsUndefined /\ sname = JsUndefined /\ x = None) \/
  ((sid = JsNull \/ sname = JsNull) /\ x = Some None) \/
  (sid <> JsNull /\ sname <> JsNull /\
   exists p, parseInt sid = Normal (Some p) /\ x = Some (Some p)).
Proof.
  unfold data_for_status.
  destruct (negb (is_undefined sid) || negb (is_undefined sname)) eqn:U.
  - destruct (is_null sid || is_null sname) eqn:N.
    + intros [= <-]. right. left. split; trivial.
      apply orb_true_iff in N as [N | N]; [left | right].
      * destruct sid; try discriminate; reflexivity.
      * destruct sname; try discriminate; reflexivity.
    + destruct (resolveStatus sid sname db) as [s|] eqn:R; [|discriminate].
      intros [= <-]. right. right. apply orb_false_iff in N as [N1 N2].
      split; [now intros -> | split; [now intros ->|]].
      apply resolveStatus_Normal in R as (_ & p & P & _ & <-).
      now exists (status_id s).
  - intros [= <-]. left. apply orb_false_iff in U as [U1 U2].
    destruct sid, sname; try discriminate; auto.
Qed.

Lemma updateTask_data_Return (body : TaskBody) (db : Store) (o : Outcome) :
  updateTask_data body db = Return o -> forall t, o <> Respond 200 (JTask t).
Proof.
  unfold updateTask_data, data_for_title, data_for_description, data_for_board,
    data_for_status.
  destruct (negb (is_undefined (title body)));
    [destruct (required_text (title body))|];
  (destruct (negb (is_undefined (description body)));
    [destruct (is_null (description body));
       [|destruct (ToString (description body))]|]);
  (destruct (negb (is_undefined (boardId body)));
    [destruct (parseInt (boardId body)) as [[p|]|];
     try destruct (Prisma.board_findUnique_id p db)|]);
  (destruct (negb (is_undefined (statusId body)) || negb (is_undefined (statusName body)));
    [destruct (is_null (statusId body) || is_null (statusName body));
       [|destruct (resolveStatus (statusId body) (statusName body) db)]|]);
  intros [= <-] t; discriminate.
Qed.

Lemma task_apply_present_fields (now : Z) (body : TaskBody) (db : Store)
    (data : TaskUpdateInput) (old : Task) :
  updateTask_data body db = Continue data ->
  applies_present_fields body old (Prisma.task_apply now data old).
Proof.
  intros D. destruct (updateTask_data_Continue _ _ _ D) as (T & De & B & S).
  apply data_for_title_Continue in T.
  apply data_for_description_Continue in De.
  apply data_for_board_Continue in B.
  apply data_for_status_Continue in S.
  unfold applies_present_fields, Prisma.task_apply. simpl.
  split; [reflexivity | split; [reflexivity|]].
  split; [|split].
  { intros E. destruct T as [[_ ->] | (s & E' & _)]; [reflexivity | congruence]. }
  { intros s E. destruct T as [[E' _] | (s' & E' & _ & ->)]; congruence. }
  split; [|split; [|split]].
  { intros E. destruct De as [[_ ->] | [[E' _] | (U & _)]];
      [reflexivity | congruence | contradiction]. }
  { intros E. destruct De as [[E' _] | [[_ ->] | (_ & N & _)]];
      [congruence | reflexivity | contradiction]. }
  { intros s U N E.
    destruct De as [[E' _] | [[E' _] | (_ & _ & s' & E' & ->)]]; congruence. }
  split; [|split].
  { intros E. destruct B as [[_ ->] | (p & E' & _)]; [reflexivity|].
    rewrite E in E'. discriminate. }
  { intros p E. destruct B as [[E' _] | (p' & E' & ->)]; [|congruence].
    rewrite E' in E. discriminate. }
  split; [|split].
  { intros E1 E2.
    destruct S as [(_ & _ & ->) | [[[E' | E'] _] | (_ & _ & p & E' & _)]];
      [reflexivity | congruence | congruence |].
    rewrite E1 in E'. discriminate. }
  { intros E.
    destruct S as [(E1 & E2 & _) | [[_ ->] | (N1 & N2 & _)]];
      [destruct E; congruence | reflexivity | destruct E; contradiction]. }
  { intros p N1 N2 E.
    destruct S as [(E1 & _) | [[[E' | E'] _] | (_ & _ & p' & E' & ->)]];
      [|contradiction | contradiction | congruence].
    rewrite E1 in E. discriminate. }
Qed.

(** C6. For a Task that exists: an accepted update (answer 200) returns
    and stores the Task with exactly the fields present in the body applied
    and every absent field as it was, and touches no Board or Status row; any
    other answer leaves the whole store, so also this Task, as it was; in
    particular a title that is empty or white space only is answered 400
    "Task title, if provided, must be a non-empty string" with the store
    unchanged. *)
Theorem updateTask_partial_and_rejections_change_nothing
    (now : Z) (id : JsValue) (body : TaskBody) (db : Store)
    (taskId : Z) (existing : Task) :
  parseInt id = Normal (Some taskId) ->
  Prisma.task_findUnique_id taskId db = Some existing ->
  (forall t db',
     updateTask now id body db = (Respond 200 (JTask t), db') ->
     applies_present_fields body existing t /\
     Prisma.task_findUnique_id taskId db' = Some t /\
     boards db' = boards db /\ statuses db' = statuses db) /\
  (forall o db',
     updateTask now id body db = (o, db') ->
     (forall t, o <> Respond 200 (JTask t)) ->
     db' = db /\ Prisma.task_findUnique_id taskId db' = Some existing) /\
  (forall s,
     title body = JsString s -> blank s = true ->
     updateTask now id body db
     = (Respond 400 (JError "Task title, if provided, must be a non-empty string"), db)).
Proof.
  intros P F. unfold updateTask. rewrite P, F. split; [|split].
  - intros t db'. destruct (updateTask_data body db) as [data|o] eqn:D.
    + unfold Prisma.task_update. rewrite F. intros [= <- <-].
      split; [now apply (task_apply_present_fields now body db)|].
      split; [|split; reflexivity].
      exact (find_map_change task_id (Prisma.task_apply now data)
               (fun _ => eq_refl) _ _ _ F).
    + intros [= -> _]. now destruct (updateTask_data_Return _ _ _ D t).
  - intros o db'. destruct (updateTask_data body db) as [data|r] eqn:D.
    + unfold Prisma.task_update. rewrite F. intros [= <- _] H.
      now destruct (H (Prisma.task_apply now data existing)).
    + intros [= _ <-] _. now split.
  - intros s E B. unfold updateTask_data, data_for_title.
    rewrite E, required_text_string, B. reflexivity.
Qed.

Lemma updateTask_partial_and_rejections_change_nothing_witness :
  updateTask 90 (JsString (lit "1")) blank_title_body sprint_store
  = (Respond 400 (JError "Task title, if provided, must be a non-empty string"),
     sprint_store) /\
  (forall t db',
     updateTask 90 (JsString (lit "1")) move_body sprint_store
       = (Respond 200 (JTask t), db') ->
     applies_present_fields move_body
       (mkTask 1 (lit "Write spec") None 1 (Some 1) 30 30) t /\
     Prisma.task_findUnique_id 1 db' = Some t /\
     boards db' = boards sprint_store /\ statuses db' = statuses sprint_store).
Proof.
  split.
  - apply (proj2 (proj2 (updateTask_partial_and_rejections_change_nothing
                           90 (JsString (lit "1")) blank_title_body sprint_store 1
                           (mkTask 1 (lit "Write spec") None 1 (Some 1) 30 30)
                           eq_refl eq_refl)) (lit "   ")); reflexivity.
  - apply (proj1 (updateTask_partial_and_rejections_change_nothing
                    90 (JsString (lit "1")) move_body sprint_store 1
                    (mkTask 1 (lit "Write spec") None 1 (Some 1) 30 30)
                    eq_refl eq_refl)).
Defined.

Example updateTask_move_accepted :
  fst (updateTask 90 (JsString (lit "1")) move_body sprint_store)
  = Respond 200 (JTask (mkTask 1 (lit "Write spec") None 2 None 30 90)).
Proof. reflexivity. Qed.

(* ================================================================= *)
(** ** Creating a Task *)

Lemma valid_title_required (v : JsValue) :
  valid_title v -> exists s, v = JsString s /\ required_text v = Some (trim s).
Proof.
  intros (s & -> & B). exists s. split; trivial.
  now rewrite required_text_string, B.
Qed.




(** C9, as stated, fails: with the description present as the empty
    string the create succeeds and the stored description is null, not the
    (empty) trimmed input. *)
Lemma createTask_empty_description_is_null :
  exists t db',
    createTask 60 empty_description_body sprint_store = (Respond 201 (JTask t), db') /\
    In t (tasks db') /\
    description empty_description_body = JsString [] /\
    task_description t = None /\
    task_description t <> Some (trim []).
Proof.
  eexists. eexists. split; [reflexivity|]. simpl.
  split; [right; right; left; reflexivity|].
  split; [reflexivity | split; [reflexivity | discriminate]].
Qed.

(** C9, amended. On every successful create the stored Task has the
    trimmed input title; its description is the trimmed text of the input
    description when that is truthy (so for every non-empty string), and
    null when it is falsy: absent, null, the empty string, 0 or false. *)
Theorem createTask_stores_trimmed_title_and_description
    (now : Z) (body : TaskBody) (db db' : Store) (t : Task) :
  createTask now body db = (Respond 201 (JTask t), db') ->
  tasks db' = tasks db ++ [t] /\
  (exists s, title body = JsString s /\ task_title t = trim s) /\
  (truthy (description body) = true ->
     exists s, ToString (description body) = Normal s /\
               task_description t = Some (trim s)) /\
  (forall s, description body = JsString s -> s <> [] ->
     task_description t = Some (trim s)) /\
  (truthy (description body) = false -> task_description t = None) /\
  (description body = JsUndefined \/ description body = JsNull \/
   description body = JsString [] -> task_description t = None).
Proof.
  unfold createTask.
  destruct (required_text (title body)) as [ttl|] eqn:R; [|discriminate].
  destruct (parseInt (boardId body)) as [[p|]|]; try discriminate.
  destruct (Prisma.board_findUnique_id p db); [|discriminate].
  destruct (resolveStatus (statusId body) (statusName body) db) as [st|];
    [|discriminate].
  apply required_text_Some in R as (s & E & _ & ->).
  assert (K : forall d,
    (if truthy (description body)
     then match ToString (description body) with
          | Normal x => Normal (Some (trim x))
          | Throw e => Throw e
          end
     else Normal None) = Normal d ->
    (truthy (description body) = true ->
       exists x, ToString (description body) = Normal x /\ d = Some (trim x)) /\
    (truthy (description body) = false -> d = None)).
  { intros d. destruct (truthy (description body)).
    - destruct (ToString (description body)) as [x|]; [|discriminate].
      intros [= <-]. split; [|discriminate]. intros _. now exists x.
    - intros [= <-]. split; [discriminate | reflexivity]. }
  destruct (if truthy (description body) then _ else _) as [d|]; [|discriminate].
  destruct (K d eq_refl) as [K1 K2]. clear K.
  simpl. intros [= <- <-]. simpl.
  split; [reflexivity | split; [now exists s | split; [exact K1 | split; [|split]]]].
  - intros x Ex Nx. rewrite Ex in K1.
    destruct K1 as (y & [= <-] & ->); trivial.
    simpl. apply jsstring_eqb_neq in Nx. now rewrite Nx.
  - exact K2.
  - intros [Ex | [Ex | Ex]]; apply K2; rewrite Ex; reflexivity.
Qed.

Lemma createTask_stores_trimmed_title_and_description_witness :
  let t := mkTask 2 (lit "Review") (Some (lit "read it")) 2 (Some 1) 50 50 in
  tasks sprint_store = [mkTask 1 (lit "Write spec") None 1 (Some 1) 30 30] ++ [t] /\
  (exists s, title review_body = JsString s /\ task_title t = trim s) /\
  (truthy (description review_body) = true ->
     exists s, ToString (description review_body) = Normal s /\
               task_description t = Some (trim s)) /\
  (forall s, description review_body = JsString s -> s <> [] ->
     task_description t = Some (trim s)) /\
  (truthy (description review_body) = false -> task_description t = None) /\
  (description review_body = JsUndefined \/ description review_body = JsNull \/
   description review_body = JsString [] -> task_description t = None).
Proof.
  exact (createTask_stores_trimmed_title_and_description 50 review_body
           (snd (router 40 (POST_boards (JsString (lit "Backlog")))
             (snd (router 30 (POST_tasks sprint_body)
               (snd (router 20 (POST_statuses (JsString (lit "TODO")))
                 (snd (router 10 (POST_boards (JsString (lit "Sprint 1")))
                    empty_store))))))))
           sprint_store
           (mkTask 2 (lit "Review") (Some (lit "read it")) 2 (Some 1) 50 50)
           eq_refl).
Defined.

(* ================================================================= *)
(** ** The conversions on sample inputs *)

Example parseInt_plain : parseInt (JsString (lit "42")) = Normal (Some 42).
Proof. reflexivity. Qed.

Example parseInt_suffix : parseInt (JsString (lit "  12abc")) = Normal (Some 12).
Proof. reflexivity. Qed.

Example parseInt_negative : parseInt (JsNumber (-7)) = Normal (Some (-7)).
Proof. reflexivity. Qed.

Example parseInt_zero : parseInt (JsString (lit "0")) = Normal (Some 0).
Proof. reflexivity. Qed.

Example parseInt_word : parseInt (JsString (lit "abc")) = Normal None.
Proof. reflexivity. Qed.

Example parseInt_undefined : parseInt JsUndefined = Normal None.
Proof. reflexivity. Qed.

Example trim_both_ends : trim (lit "  Sprint 1 ") = lit "Sprint 1".
Proof. reflexivity. Qed.

Example trim_spaces_only : trim (lit "   ") = [].
Proof. reflexivity. Qed.

Example parseInt_array : parseInt (JsObject (Some (lit "3"))) = Normal (Some 3).
Proof. reflexivity. Qed.

Example parseInt_opaque_object : parseInt (JsObject None) = Throw TypeError_primitive.
Proof. reflexivity. Qed.

Example getBoards_sprint :
  fst (getBoards sprint_store)
  = Respond 200 (JBoards
      [(mkBoard 2 (lit "Backlog") 40 40,
        [mkTask 2 (lit "Review") (Some (lit "read it")) 2 (Some 1) 50 50]);
       (mkBoard 1 (lit "Sprint 1") 10 10,
        [mkTask 1 (lit "Write spec") None 1 (Some 1) 30 30])]).
Proof. reflexivity. Qed.

Example deleteStatus_sprint :
  tasks (snd (deleteStatus 60 (JsNumber 1) sprint_store))
  = [mkTask 1 (lit "Write spec") None 1 None 30 60;
     mkTask 2 (lit "Review") (Some (lit "read it")) 2 None 50 60].
Proof. reflexivity. Qed.

(* ================================================================= *)
(** ** Listing the Statuses; deleting a Task *)

(** X1. [getStatuses] answers 200 with a rearrangement of the Status
    table in which no Status comes before one created earlier; the store is
    not changed. *)
Theorem getStatuses_lists_oldest_first (db : Store) :
  exists l,
    getStatuses db = (Respond 200 (JStatuses l), db) /\
    Permutation l (statuses db) /\
    StronglySorted (fun x y => status_createdAt x <= status_createdAt y) l.
Proof.
  exists (Prisma.status_findMany_asc db). unfold Prisma.status_findMany_asc.
  split; [reflexivity | split].
  - apply sort_by_perm.
  - apply (StronglySorted_weaken (fun x y => Prisma.older_first x y = true)).
    + intros x y H. unfold Prisma.older_first in H. lia.
    + apply sort_by_sorted.
      * intros x y. unfold Prisma.older_first. lia.
      * intros x y z. unfold Prisma.older_first. lia.
Qed.

(** X2. [deleteTask] on a Task that exists answers 200 "Task deleted
    successfully"; the Task table loses the rows with that id and keeps the
    others in order, the Boards and Statuses are untouched, and asking again
    for the same id is answered 404. *)
Theorem deleteTask_removes_that_task (id : JsValue) (taskId : Z) (row : Task)
    (db : Store) :
  parseInt id = Normal (Some taskId) ->
  Prisma.task_findUnique_id taskId db = Some row ->
  exists db',
    deleteTask id db = (Respond 200 (JMessage "Task deleted successfully"), db') /\
    tasks db' = filter (fun t => negb (task_id t =? taskId)) (tasks db) /\
    (forall t, In t (tasks db) -> task_id t <> taskId -> In t (tasks db')) /\
    boards db' = boards db /\ statuses db' = statuses db /\
    deleteTask id db' = (Respond 404 (JError "Task not found"), db').
Proof.
  intros P F. unfold deleteTask at 1. rewrite P, F.
  unfold Prisma.task_delete. rewrite F.
  eexists. split; [reflexivity|]. simpl.
  split; [reflexivity | split; [|split; [reflexivity | split; [reflexivity|]]]].
  - intros t Ht N. apply filter_In. split; trivial.
    destruct (task_id t =? taskId) eqn:E; trivial. lia.
  - unfold deleteTask. rewrite P. unfold Prisma.task_findUnique_id. simpl.
    now rewrite (find_key_removed task_id).
Qed.

Lemma deleteTask_removes_that_task_witness :
  exists db',
    deleteTask (JsString (lit "2")) sprint_store
      = (Respond 200 (JMessage "Task deleted successfully"), db') /\
    tasks db' = filter (fun t => negb (task_id t =? 2)) (tasks sprint_store) /\
    (forall t, In t (tasks sprint_store) -> task_id t <> 2 -> In t (tasks db')) /\
    boards db' = boards sprint_store /\ statuses db' = statuses sprint_store /\
    deleteTask (JsString (lit "2")) db' = (Respond 404 (JError "Task not found"), db').
Proof.
  apply (deleteTask_removes_that_task (JsString (lit "2")) 2
           (mkTask 2 (lit "Review") (Some (lit "read it")) 2 (Some 1) 50 50)
           sprint_store); reflexivity.
Defined.

(* ================================================================= *)
(** ** The checks on the id *)



(** X4. The id is checked before anything else: an id that [parseInt]
    turns into NaN is answered 400 "Invalid ... id" by every update and
    delete controller, whatever the body and the store, and nothing changes.
    In the two rename controllers the name is checked next, before the row
    is looked up: a blank name is answered 400 "... name is required" also
    for an id that names no row. *)
Theorem id_is_checked_first (now : Z) (id : JsValue) (db : Store) :
  (parseInt id = Normal None ->
     (forall name,
        updateBoard now id name db = (Respond 400 (JError "Invalid board id"), db)) /\
     deleteBoard id db = (Respond 400 (JError "Invalid board id"), db) /\
     (forall name,
        updateStatus now id name db = (Respond 400 (JError "Invalid status id"), db)) /\
     deleteStatus now id db = (Respond 400 (JError "Invalid status id"), db) /\
     (forall body,
        updateTask now id body db = (Respond 400 (JError "Invalid task id"), db)) /\
     deleteTask id db = (Respond 400 (JError "Invalid task id"), db)) /\
  (forall i s,
     parseInt id = Normal (Some i) -> blank s = true ->
     updateBoard now id (JsString s) db
       = (Respond 400 (JError "Board name is required"), db) /\
     updateStatus now id (JsString s) db
       = (Respond 400 (JError "Status name is required"), db)).
Proof.
  split.
  - intros P.
    unfold updateBoard, deleteBoard, updateStatus, deleteStatus, updateTask, deleteTask.
    rewrite P. repeat split.
  - intros i s P B. unfold updateBoard, updateStatus.
    rewrite P, required_text_string, B. split; reflexivity.
Qed.

Lemma id_is_checked_first_witness :
  updateTask 70 (JsString (lit "first")) blank_title_body sprint_store
    = (Respond 400 (JError "Invalid task id"), sprint_store) /\
  deleteStatus 70 JsUndefined sprint_store
    = (Respond 400 (JError "Invalid status id"), sprint_store) /\
  updateBoard 70 (JsNumber 9) (JsString (lit "  ")) sprint_store
    = (Respond 400 (JError "Board name is required"), sprint_store).
Proof.
  split; [|split].
  - apply (proj1 (id_is_checked_first 70 (JsString (lit "first")) sprint_store)).
    reflexivity.
  - apply (proj1 (id_is_checked_first 70 JsUndefined sprint_store)). reflexivity.
  - apply (proj2 (id_is_checked_first 70 (JsNumber 9) sprint_store) 9 (lit "  "));
      reflexivity.
Defined.

(* ================================================================= *)
(** ** Renaming to another name *)

Lemma find_conflict_found {A : Type} (p : A -> bool) (l : list A) (a : A) :
  In a l -> p a = true -> find p l <> None.
Proof.
  intros Ha Pa F. apply (find_none _ _ F) in Ha. congruence.
Qed.



(** X6. In a reachable store, renaming a Board, or a Status, that
    exists to a name held by a row with another id is answered 400 "Another
    ... with this name already exists" and nothing changes. *)
Theorem rename_to_held_name_conflicts (now : Z) (id : JsValue) (i : Z)
    (s : jsstring) (db : Store) :
  reachable db ->
  parseInt id = Normal (Some i) -> blank s = false ->
  (forall other,
     Prisma.board_findUnique_id i db <> None ->
     In other (boards db) -> board_name other = trim s -> board_id other <> i ->
     updateBoard now id (JsString s) db
     = (Respond 400 (JError "Another board with this name already exists"), db)) /\
  (forall other,
     Prisma.status_findUnique_id i db <> None ->
     In other (statuses db) -> status_name other = trim s -> status_id other <> i ->
     updateStatus now id (JsString s) db
     = (Respond 400 (JError "Another status with this name already exists"), db)).
Proof.
  intros R P B. apply consistent_reachable in R. split.
  - intros other F Ho En Ei. unfold updateBoard.
    rewrite P, required_text_string, B.
    destruct (Prisma.board_findUnique_id i db); [|congruence].
    destruct (Prisma.board_findFirst_name_not_id (trim s) i db) eqn:C; trivial.
    exfalso. revert C. apply (find_conflict_found _ _ other Ho).
    rewrite En, jsstring_eqb_refl. simpl.
    destruct (board_id other =? i) eqn:E; trivial. lia.
  - intros other F Ho En Ei. unfold updateStatus.
    rewrite P, required_text_string, B.
    destruct (Prisma.status_findUnique_id i db); [|congruence].
    fold (status_conflict (trim s) i db).
    destruct (status_conflict (trim s) i db) eqn:C; trivial.
    exfalso. apply Ei.
    apply (proj1 (status_no_conflict (trim s) i db (status_names_unique db R)) C);
      trivial.
Qed.

Lemma rename_to_held_name_conflicts_witness :
  updateBoard 70 (JsNumber 2) (JsString (lit "Sprint 1 ")) sprint_store
  = (Respond 400 (JError "Another board with this name already exists"), sprint_store).
Proof.
  apply (proj1 (rename_to_held_name_conflicts 70 (JsNumber 2) 2 (lit "Sprint 1 ")
                  sprint_store
                  ltac:(repeat apply reachable_request; apply reachable_empty)
                  eq_refl eq_refl) (mkBoard 1 (lit "Sprint 1") 10 10)).
  - discriminate.
  - left. reflexivity.
  - reflexivity.
  - discriminate.
Defined.

(* ================================================================= *)
(** ** Creating and updating a Task: when it is accepted *)

Lemma board_present_found (i : Z) (db : Store) :
  board_present i db -> exists b, Prisma.board_findUnique_id i db = Some b.
Proof.
  intros (x & Hx & <-). exact (find_key_In board_id (boards db) x Hx).
Qed.


Lemma parseInt_Some_not_nullish (v : JsValue) (p : Z) :
  parseInt v = Normal (Some p) -> nullish v = false.
Proof. destruct v; simpl; trivial; discriminate. Qed.


Lemma ToString_convertible (v : JsValue) :
  unconvertible v = false -> exists s, ToString v = Normal s.
Proof.
  destruct v as [| |[|]| | |[o|]]; simpl; try discriminate; eauto.
Qed.



(** X8. [createTask] never stores a Task without a Status.  With a
    valid title and an existing Board, a request whose [statusId] is absent
    or null is answered 404 "Status not found" and nothing is stored, whether
    or not [statusName] is given; and whenever the answer is 201 the new
    Task has a non-null [statusId] naming a Status row, a [boardId] naming a
    Board row, and the id the sequence stood at. *)
Theorem createTask_requires_a_status (now : Z) (body : TaskBody) (db : Store) :
  (forall b,
     valid_title (title body) ->
     parseInt (boardId body) = Normal (Some b) -> board_present b db ->
     statusId body = JsUndefined \/ statusId body = JsNull ->
     createTask now body db = (Respond 404 (JError "Status not found"), db)) /\
  (forall code t db',
     createTask now body db = (Respond code (JTask t), db') ->
     code = 201 /\
     (exists p, task_statusId t = Some p /\ status_present p db) /\
     board_present (task_boardId t) db /\
     task_id t = task_seq db).
Proof.
  unfold createTask. split.
  - intros b V PB HB N. apply valid_title_required in V as (s & _ & ->).
    rewrite PB. destruct (board_present_found _ _ HB) as (row & ->).
    unfold resolveStatus. now destruct N as [-> | ->].
  - intros code t db'.
    destruct (required_text (title body)); [|discriminate].
    destruct (parseInt (boardId body)) as [[b|]|]; try discriminate.
    destruct (Prisma.board_findUnique_id b db) as [row|] eqn:FB; [|discriminate].
    destruct (resolveStatus (statusId body) (statusName body) db) as [r|] eqn:RS;
      [|discriminate].
    destruct (if truthy (description body) then _ else _) as [d|]; [|discriminate].
    simpl. intros [= <- <- <-]. simpl.
    split; [reflexivity | split; [|split; [|reflexivity]]].
    + exists (status_id r). split; trivial. exact (resolveStatus_present _ _ _ _ RS).
    + exact (board_found_present _ _ _ FB).
Qed.

Lemma createTask_requires_a_status_witness :
  createTask 60 (mkTaskBody (JsString (lit "Plan")) JsUndefined (JsNumber 1) JsUndefined
                   (JsString (lit "TODO"))) sprint_store
  = (Respond 404 (JError "Status not found"), sprint_store) /\
  (exists p, Some 1 = Some p /\ status_present p
     (snd (router 40 (POST_boards (JsString (lit "Backlog")))
        (snd (router 30 (POST_tasks sprint_body)
           (snd (router 20 (POST_statuses (JsString (lit "TODO")))
              (snd (router 10 (POST_boards (JsString (lit "Sprint 1")))
                 empty_store))))))))).
Proof.
  split.
  - apply (proj1 (createTask_requires_a_status 60
             (mkTaskBody (JsString (lit "Plan")) JsUndefined (JsNumber 1) JsUndefined
                (JsString (lit "TODO"))) sprint_store) 1).
    + exists (lit "Plan"). split; reflexivity.
    + reflexivity.
    + exists (mkBoard 1 (lit "Sprint 1") 10 10). split; [now left | reflexivity].
    + left. reflexivity.
  - apply (proj2 (createTask_requires_a_status 50 review_body
             (snd (router 40 (POST_boards (JsString (lit "Backlog")))
                (snd (router 30 (POST_tasks sprint_body)
                   (snd (router 20 (POST_statuses (JsString (lit "TODO")))
                      (snd (router 10 (POST_boards (JsString (lit "Sprint 1")))
                         empty_store)))))))))
             201 (mkTask 2 (lit "Review") (Some (lit "read it")) 2 (Some 1) 50 50)
             sprint_store eq_refl).
Defined.

Lemma data_for_title_accepts (v : JsValue) :
  v = JsUndefined \/ valid_title v -> exists x, data_for_title v = Continue x.
Proof.
  unfold data_for_title. intros [-> | V]; simpl; eauto.
  apply valid_title_required in V as (s & -> & ->). simpl. eauto.
Qed.

Lemma data_for_description_accepts (v : JsValue) :
  unconvertible v = false -> exists x, data_for_description v = Continue x.
Proof.
  unfold data_for_description. intros U.
  destruct (ToString_convertible v U) as (s & ->).
  destruct (negb (is_undefined v)), (is_null v); eauto.
Qed.

Lemma data_for_board_accepts (v : JsValue) (db : Store) :
  v = JsUndefined \/ (exists p, parseInt v = Normal (Some p) /\ board_present p db) ->
  exists x, data_for_board v db = Continue x.
Proof.
  unfold data_for_board. intros [-> | (p & P & H)]; simpl; eauto.
  destruct (board_present_found _ _ H) as (row & F). rewrite P, F.
  destruct (negb (is_undefined v)); eauto.
Qed.



(** X10. The status of a Task cannot be set by name.  For a Task that
    exists, an update that gives a [statusName] other than null and no
    [statusId] is answered 404 "Status not found" once its title,
    description and [boardId] have passed, whatever Status rows exist, and
    nothing changes. *)
Theorem updateTask_by_statusName_is_not_found (now : Z) (id : JsValue)
    (body : TaskBody) (db : Store) (taskId : Z) (existing : Task) :
  parseInt id = Normal (Some taskId) ->
  Prisma.task_findUnique_id taskId db = Some existing ->
  title body = JsUndefined \/ valid_title (title body) ->
  unconvertible (description body) = false ->
  boardId body = JsUndefined \/
    (exists p, parseInt (boardId body) = Normal (Some p) /\ board_present p db) ->
  statusId body = JsUndefined ->
  statusName body <> JsUndefined -> statusName body <> JsNull ->
  updateTask now id body db = (Respond 404 (JError "Status not found"), db).
Proof.
  intros P F T D B S N1 N2. unfold updateTask. rewrite P, F.
  unfold updateTask_data.
  destruct (data_for_title_accepts _ T) as (x1 & ->).
  destruct (data_for_description_accepts _ D) as (x2 & ->).
  destruct (data_for_board_accepts _ db B) as (x3 & ->).
  unfold data_for_status, resolveStatus. rewrite S. simpl.
  destruct (statusName body); try reflexivity; congruence.
Qed.

Lemma updateTask_by_statusName_is_not_found_witness :
  updateTask 90 (JsNumber 1)
    (mkTaskBody JsUndefined JsUndefined JsUndefined JsUndefined (JsString (lit "TODO")))
    sprint_store
  = (Respond 404 (JError "Status not found"), sprint_store).
Proof.
  apply (updateTask_by_statusName_is_not_found 90 (JsNumber 1)
           (mkTaskBody JsUndefined JsUndefined JsUndefined JsUndefined
              (JsString (lit "TODO")))
           sprint_store 1 (mkTask 1 (lit "Write spec") None 1 (Some 1) 30 30));
    try reflexivity; try (left; reflexivity); discriminate.
Defined.

(* ================================================================= *)
(** ** How a request can end *)

Lemma parseInt_Throw (v : JsValue) (e : JsError) :
  parseInt v = Throw e -> v = JsObject None /\ e = TypeError_primitive.
Proof.
  destruct v as [| |[|]| | |[o|]]; simpl; try discriminate.
  now intros [= <-].
Qed.

Lemma ToString_Throw (v : JsValue) (e : JsError) :
  ToString v = Throw e -> v = JsObject None /\ e = TypeError_primitive.
Proof.
  destruct v as [| |[|]| | |[o|]]; simpl; try discriminate.
  now intros [= <-].
Qed.

Lemma resolveStatus_Throw (sid sname : JsValue) (db : Store) (e : JsError) :
  resolveStatus sid sname db = Throw e ->
  status_or_400 e = 400 \/ status_or_400 e = 404.
Proof.
  unfold resolveStatus. destruct (nullish sid).
  - intros [= <-]. now right.
  - destruct (parseInt sid) as [[p|]|x] eqn:P.
    + destruct (Prisma.status_findUnique_id p db); [discriminate|].
      intros [= <-]. now right.
    + intros [= <-]. now left.
    + intros [= <-]. apply parseInt_Throw in P as [_ ->]. now left.
Qed.

Ltac success_end :=
  left; eexists; eexists; split; [reflexivity | auto].
Ltac error_end :=
  right; split; [reflexivity|]; left; eexists; eexists; split; [reflexivity | auto].
Ltac thrown_end H :=
  right; split; [reflexivity|]; right;
  apply parseInt_Throw in H as [-> ->]; split; [reflexivity|];
  simpl; rewrite ?orb_true_r; reflexivity.

Lemma createBoard_ends_well (now : Z) (name : JsValue) (db : Store) :
  ends_well (POST_boards name) db (createBoard now name db).
Proof.
  unfold createBoard. destruct (required_text name); [|error_end].
  destruct (Prisma.board_findUnique_name j db); [error_end | success_end].
Qed.

Lemma createStatus_ends_well (now : Z) (name : JsValue) (db : Store) :
  ends_well (POST_statuses name) db (createStatus now name db).
Proof.
  unfold createStatus. destruct (required_text name); [|error_end].
  destruct (Prisma.status_findUnique_name j db); [error_end | success_end].
Qed.

Lemma updateBoard_ends_well (now : Z) (id name : JsValue) (db : Store) :
  ends_well (PUT_boards id name) db (updateBoard now id name db).
Proof.
  unfold updateBoard. destruct (parseInt id) as [[i|]|e] eqn:P;
    [|error_end|thrown_end P].
  destruct (required_text name) as [n|]; [|error_end].
  destruct (Prisma.board_findUnique_id i db) as [b|] eqn:F; [|error_end].
  destruct (Prisma.board_findFirst_name_not_id n i db); [error_end|].
  unfold Prisma.board_update. rewrite F. success_end.
Qed.

Lemma updateStatus_ends_well (now : Z) (id name : JsValue) (db : Store) :
  ends_well (PUT_statuses id name) db (updateStatus now id name db).
Proof.
  unfold updateStatus. destruct (parseInt id) as [[i|]|e] eqn:P;
    [|error_end|thrown_end P].
  destruct (required_text name) as [n|]; [|error_end].
  destruct (Prisma.status_findUnique_id i db) as [b|] eqn:F; [|error_end].
  fold (status_conflict n i db). destruct (status_conflict n i db); [error_end|].
  unfold Prisma.status_update. rewrite F. success_end.
Qed.

Lemma deleteBoard_ends_well (id : JsValue) (db : Store) :
  ends_well (DELETE_boards id) db (deleteBoard id db).
Proof.
  unfold deleteBoard. destruct (parseInt id) as [[i|]|e] eqn:P;
    [|error_end|thrown_end P].
  destruct (Prisma.board_findUnique_id i db) as [b|] eqn:F; [|error_end].
  unfold Prisma.board_delete.
  replace (Prisma.board_findUnique_id i (Prisma.task_deleteMany_boardId i db))
    with (Some b) by (symmetry; exact F).
  success_end.
Qed.

Lemma deleteStatus_ends_well (now : Z) (id : JsValue) (db : Store) :
  ends_well (DELETE_statuses id) db (deleteStatus now id db).
Proof.
  unfold deleteStatus. destruct (parseInt id) as [[i|]|e] eqn:P;
    [|error_end|thrown_end P].
  destruct (Prisma.status_findUnique_id i db) as [b|] eqn:F; [|error_end].
  unfold Prisma.status_delete.
  replace (Prisma.status_findUnique_id i (Prisma.task_updateMany_unlink now i db))
    with (Some b) by (symmetry; exact F).
  success_end.
Qed.

Lemma deleteTask_ends_well (id : JsValue) (db : Store) :
  ends_well (DELETE_tasks id) db (deleteTask id db).
Proof.
  unfold deleteTask. destruct (parseInt id) as [[i|]|e] eqn:P;
    [|error_end|thrown_end P].
  destruct (Prisma.task_findUnique_id i db) as [b|] eqn:F; [|error_end].
  unfold Prisma.task_delete. rewrite F. success_end.
Qed.

Lemma unconvertible_field (v : JsValue) (l : list JsValue) :
  In v l -> v = JsObject None -> existsb unconvertible l = true.
Proof.
  intros H ->. apply existsb_exists. now exists (JsObject None).
Qed.

Lemma createTask_ends_well (now : Z) (body : TaskBody) (db : Store) :
  ends_well (POST_tasks body) db (createTask now body db).
Proof.
  unfold createTask.
  destruct (required_text (title body)) as [ttl|]; [|error_end].
  destruct (parseInt (boardId body)) as [[b|]|e] eqn:P; [|error_end|].
  - destruct (Prisma.board_findUnique_id b db); [|error_end].
    destruct (resolveStatus (statusId body) (statusName body) db) as [r|e] eqn:RS.
    + destruct (truthy (description body)).
      * destruct (ToString (description body)) as [s|e] eqn:D; [success_end|].
        apply ToString_Throw in D as [D ->].
        right. split; [reflexivity|]. right. split; [reflexivity|].
        apply (unconvertible_field (description body)); trivial.
        simpl. auto.
      * success_end.
    + apply resolveStatus_Throw in RS. error_end.
  - apply parseInt_Throw in P as [P ->].
    right. split; [reflexivity|]. right. split; [reflexivity|].
    apply (unconvertible_field (boardId body)); trivial.
    simpl. auto.
Qed.

Lemma updateTask_data_ends (body : TaskBody) (db : Store) (o : Outcome) :
  updateTask_data body db = Return o ->
  (exists code message, o = Respond code (JError message) /\ (code = 400 \/ code = 404)) \/
  (o = Next TypeError_primitive /\ existsb unconvertible (body_fields body) = true).
Proof.
  unfold updateTask_data.
  destruct (data_for_title (title body)) as [x1|o1] eqn:T.
  2: { intros [= <-]. left. unfold data_for_title in T.
       destruct (negb (is_undefined (title body))); [|discriminate].
       destruct (required_text (title body)); [discriminate|].
       injection T as <-. eauto. }
  destruct (data_for_description (description body)) as [x2|o2] eqn:D.
  2: { intros [= <-]. right. unfold data_for_description in D.
       destruct (negb (is_undefined (description body))); [|discriminate].
       destruct (is_null (description body)); [discriminate|].
       destruct (ToString (description body)) as [s|e] eqn:E; [discriminate|].
       injection D as <-. apply ToString_Throw in E as [E ->]. split; trivial.
       apply (unconvertible_field (description body)); trivial. simpl. auto. }
  destruct (data_for_board (boardId body) db) as [x3|o3] eqn:B.
  2: { intros [= <-]. unfold data_for_board in B.
       destruct (negb (is_undefined (boardId body))); [|discriminate].
       destruct (parseInt (boardId body)) as [[p|]|e] eqn:E.
       - destruct (Prisma.board_findUnique_id p db); [discriminate|].
         injection B as <-. left. eauto.
       - injection B as <-. left. eauto.
       - injection B as <-. right. apply parseInt_Throw in E as [E ->].
         split; trivial.
         apply (unconvertible_field (boardId body)); trivial. simpl. auto. }
  destruct (data_for_status (statusId body) (statusName body) db) as [x4|o4] eqn:S.
  2: { intros [= <-]. left. unfold data_for_status in S.
       destruct (negb (is_undefined (statusId body)) || _); [|discriminate].
       destruct (is_null (statusId body) || _); [discriminate|].
       destruct (resolveStatus (statusId body) (statusName body) db) as [r|e] eqn:RS;
         [discriminate|].
       injection S as <-. apply resolveStatus_Throw in RS. eauto. }
  discriminate.
Qed.

Lemma updateTask_ends_well (now : Z) (id : JsValue) (body : TaskBody) (db : Store) :
  ends_well (PUT_tasks id body) db (updateTask now id body db).
Proof.
  unfold updateTask. destruct (parseInt id) as [[i|]|e] eqn:P;
    [|error_end|thrown_end P].
  destruct (Prisma.task_findUnique_id i db) as [t|] eqn:F; [|error_end].
  destruct (updateTask_data body db) as [data|o] eqn:D.
  - unfold Prisma.task_update. rewrite F. success_end.
  - right. split; [reflexivity|].
    destruct (updateTask_data_ends _ _ _ D) as [E | [-> U]]; [now left | right].
    split; [reflexivity|]. simpl. simpl in U. rewrite U. apply orb_true_r.
Qed.

Lemma router_ends_well (now : Z) (r : Request) (db : Store) :
  ends_well r db (router now r db).
Proof.
  destruct r; simpl.
  - left. unfold getBoards. simpl. eauto.
  - apply createBoard_ends_well.
  - apply updateBoard_ends_well.
  - apply deleteBoard_ends_well.
  - apply createTask_ends_well.
  - apply updateTask_ends_well.
  - apply deleteTask_ends_well.
  - left. unfold getStatuses. simpl. eauto.
  - apply createStatus_ends_well.
  - apply updateStatus_ends_well.
  - apply deleteStatus_ends_well.
Qed.

(** X11. A request that is not answered with a success changes
    nothing: whenever the answer of a controller is anything but a 200 or
    201, the store after it is the store before it.  So no controller
    leaves a cascade or an update half done. *)
Theorem failed_request_changes_nothing (now : Z) (r : Request) (db : Store) :
  succeeded (fst (router now r db)) = false -> snd (router now r db) = db.
Proof.
  intros H. destruct (router_ends_well now r db) as [(c & b & E & C) | [E _]]; trivial.
  rewrite E in H. simpl in H. destruct C as [-> | ->]; discriminate.
Qed.

Lemma failed_request_changes_nothing_witness :
  snd (router 60 (POST_tasks zero_board_body) sprint_store) = sprint_store /\
  snd (router 60 (DELETE_boards (JsObject None)) sprint_store) = sprint_store.
Proof.
  split; apply failed_request_changes_nothing; reflexivity.
Defined.



(* ================================================================= *)
(** ** server.js: answers of the mounted API *)




(* ================================================================= *)
(** ** Ids as numbers and as text *)

Lemma digits_prefix_all (l : jsstring) :
  forallb isDigit l = true -> digits_prefix l = l.
Proof.
  induction l as [|c r IH]; simpl; trivial.
  intros H. apply andb_true_iff in H as [H1 H2]. rewrite H1. f_equal. auto.
Qed.

Lemma digits_prefix_stop (ds rest : jsstring) :
  forallb isDigit ds = true ->
  match rest with [] => true | c :: _ => negb (isDigit c) end = true ->
  digits_prefix (ds ++ rest) = ds.
Proof.
  intros D R. induction ds as [|c r IH]; simpl.
  - destruct rest as [|x y]; simpl; trivial.
    apply negb_true_iff in R. now rewrite R.
  - simpl in D. apply andb_true_iff in D as [D1 D2]. rewrite D1. f_equal. auto.
Qed.

Lemma lit_String (a : ascii) (s : string) : lit (String a s) = N_of_ascii a :: lit s.
Proof. reflexivity. Qed.

Ltac digit_code :=
  match goal with
  | |- context [Z.of_N (N_of_ascii ?a - 48)] =>
      let v := eval vm_compute in (Z.of_N (N_of_ascii a - 48)) in
      change (Z.of_N (N_of_ascii a - 48)) with v
  end.

Lemma numeral_digits (d : Decimal.uint) :
  forallb isDigit (lit (NilEmpty.string_of_uint d)) = true.
Proof.
  induction d; cbn [NilEmpty.string_of_uint]; rewrite ?lit_String; trivial;
    cbn [forallb]; rewrite IHd; reflexivity.
Qed.

Lemma numeral_value_acc (d : Decimal.uint) (acc : positive) :
  fold_left (fun a c => 10 * a + Z.of_N (c - 48)) (lit (NilEmpty.string_of_uint d))
            (Z.pos acc)
  = Z.pos (Pos.of_uint_acc d acc).
Proof.
  revert acc.
  induction d; intros acc; cbn [NilEmpty.string_of_uint Pos.of_uint_acc];
    rewrite ?lit_String; cbn [fold_left]; trivial;
    rewrite <- IHd; f_equal; digit_code; lia.
Qed.

Lemma numeral_value (d : Decimal.uint) :
  digits_value (lit (NilEmpty.string_of_uint d)) = Z.of_N (N.of_uint d).
Proof.
  unfold digits_value, N.of_uint.
  induction d; cbn [NilEmpty.string_of_uint Pos.of_uint];
    rewrite ?lit_String; cbn [fold_left]; trivial;
    digit_code; try exact IHd; apply (numeral_value_acc d).
Qed.

Lemma decimal_value (n : N) : digits_value (decimal n) = Z.of_N n.
Proof.
  unfold decimal. now rewrite numeral_value, DecimalN.Unsigned.of_to.
Qed.

Lemma decimal_digits (n : N) : forallb isDigit (decimal n) = true.
Proof. apply numeral_digits. Qed.

Lemma decimal_not_empty (n : N) : decimal n <> [].
Proof.
  unfold decimal. intros E.
  pose proof (DecimalN.Unsigned.of_to n) as R.
  destruct (N.to_uint n) eqn:U; try discriminate.
  destruct n; discriminate.
Qed.

Lemma digit_cases (c : code_unit) :
  isDigit c = true ->
  (c = 48 \/ c = 49 \/ c = 50 \/ c = 51 \/ c = 52 \/
   c = 53 \/ c = 54 \/ c = 55 \/ c = 56 \/ c = 57)%N.
Proof.
  unfold isDigit. intros H. apply andb_true_iff in H as [L U].
  apply N.leb_le in L, U. lia.
Qed.

Lemma digit_not_space (c : code_unit) : isDigit c = true -> isWhiteSpace c = false.
Proof.
  intros H. apply digit_cases in H.
  repeat (destruct H as [-> | H]; [reflexivity|]). now subst.
Qed.



Lemma trimStart_keeps (c : code_unit) (s : jsstring) :
  isWhiteSpace c = false -> trimStart (c :: s) = c :: s.
Proof. simpl. now intros ->. Qed.

Lemma parseInt_string_digits (ds rest : jsstring) :
  ds <> [] -> forallb isDigit ds = true ->
  match rest with [] => true | c :: _ => negb (isDigit c) end = true ->
  parseInt_string (ds ++ rest) = Some (digits_value ds).
Proof.
  intros N D R. unfold parseInt_string.
  destruct ds as [|c r]; [congruence|].
  assert (Dc : isDigit c = true) by (simpl in D; now apply andb_true_iff in D).
  assert (E : digits_prefix ((c :: r) ++ rest) = c :: r)
    by now apply digits_prefix_stop.
  rewrite <- app_comm_cons in *.
  rewrite (trimStart_keeps c _ (digit_not_space c Dc)).
  apply digit_cases in Dc.
  repeat (destruct Dc as [-> | Dc]; [rewrite E; f_equal; lia|]).
  subst c. rewrite E. f_equal. lia.
Qed.

Lemma parseInt_string_minus (ds rest : jsstring) :
  ds <> [] -> forallb isDigit ds = true ->
  match rest with [] => true | c :: _ => negb (isDigit c) end = true ->
  parseInt_string (45%N :: ds ++ rest) = Some (- digits_value ds).
Proof.
  intros N D R. unfold parseInt_string.
  rewrite (trimStart_keeps 45%N _ eq_refl).
  rewrite (digits_prefix_stop ds rest D R).
  destruct ds as [|c r]; [congruence|]. f_equal; lia.
Qed.

Lemma parseInt_number (n : Z) : parseInt (JsNumber n) = Normal (Some n).
Proof.
  unfold parseInt. cbn [ToString]. f_equal. unfold number_toString.
  destruct (n <? 0) eqn:S.
  - rewrite <- (app_nil_r (decimal (Z.abs_N n))).
    rewrite parseInt_string_minus;
      [|apply decimal_not_empty | apply decimal_digits | reflexivity].
    rewrite decimal_value. f_equal. lia.
  - rewrite <- (app_nil_r (decimal (Z.abs_N n))).
    rewrite parseInt_string_digits;
      [|apply decimal_not_empty | apply decimal_digits | reflexivity].
    rewrite decimal_value. f_equal. lia.
Qed.



(* ================================================================= *)
(** ** Ids in reachable stores *)

Lemma Forall_snoc {A : Type} (P : A -> Prop) (l : list A) (a : A) :
  Forall P l -> P a -> Forall P (l ++ [a]).
Proof. intros F H. apply Forall_app. split; [exact F | now constructor]. Qed.

Lemma Forall_rows_changed {A : Type} (P : A -> Prop) (f : A -> A) (l : list A) :
  (forall x, P x -> P (f x)) -> Forall P l -> Forall P (map f l).
Proof.
  intros H F. apply Forall_map. eapply Forall_impl; [|exact F]. exact H.
Qed.

Ltac ids_kept :=
  repeat match goal with
         | |- _ /\ _ => split
         | |- Forall _ (_ ++ [_]) => apply Forall_snoc
         | |- Forall _ (filter _ _) => apply Forall_filter_keep
         | |- Forall _ (map _ _) => apply Forall_rows_changed
         end;
  try (intros ? ?;
       match goal with |- context [if ?d then _ else _] => destruct d end);
  simpl; trivial; try lia.

Lemma ids_from_one_router (now : Z) (r : Request) (db : Store) :
  ids_from_one db -> ids_from_one (snd (router now r db)).
Proof.
  intros I. pose proof I as (B & S & T & FB & FS & FT).
  unfold ids_from_one.
  destruct r as [|name|id name|id|body|id body|id| |name|id name|id]; simpl; trivial.
  - unfold createBoard. destruct (required_text name) as [n|]; trivial.
    destruct (Prisma.board_findUnique_name n db); trivial. simpl. ids_kept.
  - unfold updateBoard. destruct (parseInt id) as [[i|]|]; trivial.
    destruct (required_text name) as [n|]; trivial.
    destruct (Prisma.board_findUnique_id i db) as [b|] eqn:F; trivial.
    destruct (Prisma.board_findFirst_name_not_id n i db); trivial.
    unfold Prisma.board_update. rewrite F. simpl. ids_kept.
  - unfold deleteBoard. destruct (parseInt id) as [[i|]|]; trivial.
    destruct (Prisma.board_findUnique_id i db) as [b|] eqn:F; trivial.
    unfold Prisma.board_delete.
    replace (Prisma.board_findUnique_id i (Prisma.task_deleteMany_boardId i db))
      with (Some b) by (symmetry; exact F).
    simpl. ids_kept.
  - unfold createTask. destruct (required_text (title body)); trivial.
    destruct (parseInt (boardId body)) as [[b|]|]; trivial.
    destruct (Prisma.board_findUnique_id b db); trivial.
    destruct (resolveStatus _ _ db); trivial.
    destruct (if truthy (description body) then _ else _); trivial.
    simpl. ids_kept.
  - unfold updateTask. destruct (parseInt id) as [[i|]|]; trivial.
    destruct (Prisma.task_findUnique_id i db) as [t|] eqn:F; trivial.
    destruct (updateTask_data body db); trivial.
    unfold Prisma.task_update. rewrite F. simpl. ids_kept.
  - unfold deleteTask. destruct (parseInt id) as [[i|]|]; trivial.
    destruct (Prisma.task_findUnique_id i db) as [t|] eqn:F; trivial.
    unfold Prisma.task_delete. rewrite F. simpl. ids_kept.
  - unfold createStatus. destruct (required_text name) as [n|]; trivial.
    destruct (Prisma.status_findUnique_name n db); trivial. simpl. ids_kept.
  - unfold updateStatus. destruct (parseInt id) as [[i|]|]; trivial.
    destruct (required_text name) as [n|]; trivial.
    destruct (Prisma.status_findUnique_id i db) as [b|] eqn:F; trivial.
    fold (status_conflict n i db). destruct (status_conflict n i db); trivial.
    unfold Prisma.status_update. rewrite F. simpl. ids_kept.
  - unfold deleteStatus. destruct (parseInt id) as [[i|]|]; trivial.
    destruct (Prisma.status_findUnique_id i db) as [b|] eqn:F; trivial.
    unfold Prisma.status_delete.
    replace (Prisma.status_findUnique_id i (Prisma.task_updateMany_unlink now i db))
      with (Some b) by (symmetry; exact F).
    simpl. ids_kept.
Qed.

Lemma ids_from_one_reachable (db : Store) : reachable db -> ids_from_one db.
Proof.
  induction 1 as [|now r db _ IH].
  - unfold ids_from_one. simpl. repeat split; try lia; constructor.
  - now apply ids_from_one_router.
Qed.

Lemma below_one_not_found {A : Type} (key : A -> Z) (l : list A) (i : Z) :
  Forall (fun x => 1 <= key x) l -> i <= 0 -> find (fun x => key x =? i) l = None.
Proof.
  intros F H. apply find_key_None. intros x Hx E.
  rewrite Forall_forall in F. apply F in Hx. lia.
Qed.

(** X15. In every reachable store the ids of each table are pairwise
    different, at least 1 and below the table's sequence, and every Board
    and Status name is non-empty and trimmed.  Hence an id that is zero or
    negative names no row of any table. *)
Theorem reachable_ids_and_names (db : Store) :
  reachable db ->
  NoDup (map board_id (boards db)) /\
  NoDup (map status_id (statuses db)) /\
  NoDup (map task_id (tasks db)) /\
  (forall b, In b (boards db) ->
     1 <= board_id b < board_seq db /\
     board_name b <> [] /\ trim (board_name b) = board_name b) /\
  (forall s, In s (statuses db) ->
     1 <= status_id s < status_seq db /\
     status_name s <> [] /\ trim (status_name s) = status_name s) /\
  (forall t, In t (tasks db) -> 1 <= task_id t < task_seq db) /\
  (forall i, i <= 0 ->
     Prisma.board_findUnique_id i db = None /\
     Prisma.status_findUnique_id i db = None /\
     Prisma.task_findUnique_id i db = None).
Proof.
  intros R. pose proof (ids_from_one_reachable db R) as (_ & _ & _ & PB & PS & PT).
  apply consistent_reachable in R. destruct R.
  rewrite Forall_forall in *.
  split; [assumption | split; [assumption | split; [assumption|]]].
  split; [|split; [|split]].
  - intros b Hb. specialize (board_ids_fresh0 b Hb). specialize (PB b Hb).
    destruct (board_names_trimmed0 b Hb). repeat split; trivial.
  - intros s Hs. specialize (status_ids_fresh0 s Hs). specialize (PS s Hs).
    destruct (status_names_trimmed0 s Hs). repeat split; trivial.
  - intros t Ht. specialize (task_ids_fresh0 t Ht). specialize (PT t Ht). lia.
  - intros i Hi. rewrite <- Forall_forall in PB, PS, PT.
    repeat split; now apply below_one_not_found.
Qed.

Lemma reachable_ids_and_names_witness :
  Prisma.board_findUnique_id 0 sprint_store = None /\
  NoDup (map task_id (tasks sprint_store)).
Proof.
  pose proof (reachable_ids_and_names sprint_store) as H.
  assert (R : reachable sprint_store)
    by (repeat apply reachable_request; apply reachable_empty).
  destruct (H R) as (_ & _ & T & _ & _ & _ & Z0).
  split; [exact (proj1 (Z0 0 ltac:(lia))) | exact T].
Defined.

Lemma task_apply_text (now : Z) (body : TaskBody) (db : Store)
    (data : TaskUpdateInput) (t : Task) :
  updateTask_data body db = Continue data ->
  task_text_trimmed t -> task_text_trimmed (Prisma.task_apply now data t).
Proof.
  intros D [T1 T2]. destruct (updateTask_data_Continue _ _ _ D) as (T & De & _ & _).
  apply data_for_title_Continue in T. apply data_for_description_Continue in De.
  unfold task_text_trimmed, Prisma.task_apply. simpl. split.
  - destruct T as [[_ ->] | (s & _ & B & ->)]; trivial.
    apply trim_trimmed_name. intros E. apply trim_blank in E. congruence.
  - intros d. destruct De as [[_ ->] | [[_ ->] | (_ & _ & s & _ & ->)]]; auto.
    + discriminate.
    + intros [= <-]. apply trim_idem.
Qed.

Lemma task_text_router (now : Z) (r : Request) (db : Store) :
  Forall task_text_trimmed (tasks db) ->
  Forall task_text_trimmed (tasks (snd (router now r db))).
Proof.
  intros I.
  destruct r as [|name|id name|id|body|id body|id| |name|id name|id]; simpl; trivial.
  - unfold createBoard. destruct (required_text name) as [n|]; trivial.
    destruct (Prisma.board_findUnique_name n db); trivial.
  - unfold updateBoard. destruct (parseInt id) as [[i|]|]; trivial.
    destruct (required_text name) as [n|]; trivial.
    destruct (Prisma.board_findUnique_id i db) as [b|] eqn:F; trivial.
    destruct (Prisma.board_findFirst_name_not_id n i db); trivial.
    unfold Prisma.board_update. now rewrite F.
  - unfold deleteBoard. destruct (parseInt id) as [[i|]|]; trivial.
    destruct (Prisma.board_findUnique_id i db) as [b|] eqn:F; trivial.
    unfold Prisma.board_delete.
    replace (Prisma.board_findUnique_id i (Prisma.task_deleteMany_boardId i db))
      with (Some b) by (symmetry; exact F).
    simpl. now apply Forall_filter_keep.
  - unfold createTask. destruct (required_text (title body)) as [ttl|] eqn:T; trivial.
    destruct (parseInt (boardId body)) as [[b|]|]; trivial.
    destruct (Prisma.board_findUnique_id b db); trivial.
    destruct (resolveStatus _ _ db); trivial.
    destruct (truthy (description body)).
    + destruct (ToString (description body)) as [s|]; trivial.
      simpl. apply Forall_snoc; trivial. split; simpl.
      * exact (required_text_trimmed _ _ T).
      * intros d [= <-]. apply trim_idem.
    + simpl. apply Forall_snoc; trivial. split; simpl.
      * exact (required_text_trimmed _ _ T).
      * discriminate.
  - unfold updateTask. destruct (parseInt id) as [[i|]|]; trivial.
    destruct (Prisma.task_findUnique_id i db) as [t|] eqn:F; trivial.
    destruct (updateTask_data body db) as [data|] eqn:D; trivial.
    unfold Prisma.task_update. rewrite F. simpl.
    apply Forall_rows_changed; trivial. intros x Hx.
    destruct (task_id x =? i); trivial.
    exact (task_apply_text now body db data x D Hx).
  - unfold deleteTask. destruct (parseInt id) as [[i|]|]; trivial.
    destruct (Prisma.task_findUnique_id i db) as [t|] eqn:F; trivial.
    unfold Prisma.task_delete. rewrite F. simpl. now apply Forall_filter_keep.
  - unfold createStatus. destruct (required_text name) as [n|]; trivial.
    destruct (Prisma.status_findUnique_name n db); trivial.
  - unfold updateStatus. destruct (parseInt id) as [[i|]|]; trivial.
    destruct (required_text name) as [n|]; trivial.
    destruct (Prisma.status_findUnique_id i db) as [b|] eqn:F; trivial.
    fold (status_conflict n i db). destruct (status_conflict n i db); trivial.
    unfold Prisma.status_update. now rewrite F.
  - unfold deleteStatus. destruct (parseInt id) as [[i|]|]; trivial.
    destruct (Prisma.status_findUnique_id i db) as [b|] eqn:F; trivial.
    unfold Prisma.status_delete.
    replace (Prisma.status_findUnique_id i (Prisma.task_updateMany_unlink now i db))
      with (Some b) by (symmetry; exact F).
    simpl. apply Forall_rows_changed; trivial. intros x Hx.
    now destruct (Prisma.refers_to i x).
Qed.

(** X16. In every reachable store each Task has a title that is
    non-empty and trimmed, and a description that is null or trimmed: no
    create or update ever stores a blank title or padded text. *)
Theorem reachable_task_text_is_trimmed (db : Store) :
  reachable db ->
  forall t, In t (tasks db) ->
    task_title t <> [] /\ trim (task_title t) = task_title t /\
    (forall d, task_description t = Some d -> trim d = d).
Proof.
  intros R.
  assert (F : Forall task_text_trimmed (tasks db)).
  { induction R as [|now r db _ IH]; [constructor | now apply task_text_router]. }
  rewrite Forall_forall in F. intros t Ht.
  destruct (F t Ht) as [[T1 T2] T3]. auto.
Qed.

Lemma reachable_task_text_is_trimmed_witness :
  let t := mkTask 2 (lit "Review") (Some (lit "read it")) 2 (Some 1) 50 50 in
  task_title t <> [] /\ trim (task_title t) = task_title t /\
  (forall d, task_description t = Some d -> trim d = d).
Proof.
  apply (reachable_task_text_is_trimmed sprint_store).
  - repeat apply reachable_request. apply reachable_empty.
  - right. left. reflexivity.
Defined.

(* ================================================================= *)
(** ** Create, then list, look up or delete *)















(** X20. After a Board is deleted its Tasks are gone for every
    controller.  In a reachable store, once [deleteBoard] has answered 200
    for Board [b], each Task that was on [b] is unknown: deleting or
    updating it by its id is answered 404 "Task not found", and creating a
    Task on [b] is answered 404 "Board not found". *)
Theorem deleted_board_tasks_are_unknown (now : Z) (id : JsValue) (b : Z)
    (db db' : Store) :
  reachable db ->
  parseInt id = Normal (Some b) ->
  deleteBoard id db
    = (Respond 200 (JMessage "Board and its tasks deleted successfully"), db') ->
  (forall t, In t (tasks db) -> task_boardId t = b ->
     Prisma.task_findUnique_id (task_id t) db' = None /\
     deleteTask (JsNumber (task_id t)) db'
       = (Respond 404 (JError "Task not found"), db') /\
     forall body,
       updateTask now (JsNumber (task_id t)) body db'
       = (Respond 404 (JError "Task not found"), db')) /\
  (forall body,
     valid_title (title body) -> parseInt (boardId body) = Normal (Some b) ->
     createTask now body db' = (Respond 404 (JError "Board not found"), db')).
Proof.
  intros R P. unfold deleteBoard. rewrite P.
  destruct (Prisma.board_findUnique_id b db) as [row|] eqn:F; [|discriminate].
  unfold Prisma.board_delete.
  replace (Prisma.board_findUnique_id b (Prisma.task_deleteMany_boardId b db))
    with (Some row) by (symmetry; exact F).
  intros [= <-].
  pose proof (consistent_reachable db R) as C. destruct C.
  split.
  - intros t Ht Eb.
    assert (N : Prisma.task_findUnique_id (task_id t)
                  (with_boards (filter (fun x => negb (board_id x =? b)) (boards db))
                     (Prisma.task_deleteMany_boardId b db)) = None).
    { apply find_key_None. intros y Hy Ey. simpl in Hy.
      apply filter_In in Hy as [Hy Ky].
      pose proof (find_key_unique task_id (tasks db) y task_ids_unique0 Hy) as Fy.
      pose proof (find_key_unique task_id (tasks db) t task_ids_unique0 Ht) as Ft.
      rewrite Ey in Fy. assert (y = t) by congruence. subst y.
      rewrite Eb, Z.eqb_refl in Ky. discriminate. }
    split; [exact N|]. unfold deleteTask, updateTask.
    rewrite parseInt_number, N. split; [reflexivity | intros body; reflexivity].
  - intros body V PB. apply valid_title_required in V as (s & _ & Rq).
    unfold createTask. rewrite Rq, PB.
    unfold Prisma.board_findUnique_id. simpl.
    now rewrite (find_key_removed board_id).
Qed.

Lemma deleted_board_tasks_are_unknown_witness :
  Prisma.task_findUnique_id 1 (snd (deleteBoard (JsNumber 1) sprint_store)) = None /\
  deleteTask (JsNumber 1) (snd (deleteBoard (JsNumber 1) sprint_store))
  = (Respond 404 (JError "Task not found"),
     snd (deleteBoard (JsNumber 1) sprint_store)).
Proof.
  pose proof (deleted_board_tasks_are_unknown 70 (JsNumber 1) 1 sprint_store
                (snd (deleteBoard (JsNumber 1) sprint_store))
                ltac:(repeat apply reachable_request; apply reachable_empty)
                eq_refl eq_refl) as [H _].
  destruct (H (mkTask 1 (lit "Write spec") None 1 (Some 1) 30 30)
              ltac:(left; reflexivity) eq_refl) as (N & D & _).
  split; [exact N | exact D].
Defined.

(* ================================================================= *)
(** ** validators/validate.js *)

Lemma validate_part_Continue {A : Type} (schema : option (SchemaValidate A))
    (part value : A) :
  validate_part schema part = Continue value <-> accepted_as schema part value.
Proof.
  unfold validate_part, accepted_as. destruct schema as [check|].
  - destruct (check part) as [[m|v]|e]; split; intros H;
      try discriminate; try congruence.
  - split; congruence.
Qed.

Lemma validate_part_rejected {A : Type} (schema : option (SchemaValidate A))
    (part : A) (message : string) :
  rejected_with schema part message ->
  validate_part schema part = Return (Respond 400 (JError message)).
Proof.
  intros (check & -> & E). unfold validate_part. now rewrite E.
Qed.

(** X21. The validation middleware.  The request goes on to the next
    handler exactly when every schema that is given accepts its part, and it
    goes on with each checked part replaced by the schema's converted value
    and each unchecked part as it came (with no schema at all, unchanged).
    The parts are checked in the order params, query, body: the first
    schema to turn its part down decides the answer, a 400 with that
    schema's message, and the later schemas do not matter.  The middleware
    never answers anything but such a 400, apart from forwarding what a
    schema throws. *)
Theorem validate_checks_in_order {P Q B : Type} (schemas : Schemas P Q B)
    (req : RequestParts P Q B) :
  validate (mkSchemas None None None) req = Continue req /\
  (forall req',
     validate schemas req = Continue req' <->
     accepted_as (paramsSchema schemas) (req_params req) (req_params req') /\
     accepted_as (querySchema schemas) (req_query req) (req_query req') /\
     accepted_as (bodySchema schemas) (req_body req) (req_body req')) /\
  (forall m,
     rejected_with (paramsSchema schemas) (req_params req) m ->
     validate schemas req = Return (Respond 400 (JError m))) /\
  (forall m p,
     accepted_as (paramsSchema schemas) (req_params req) p ->
     rejected_with (querySchema schemas) (req_query req) m ->
     validate schemas req = Return (Respond 400 (JError m))) /\
  (forall m p q,
     accepted_as (paramsSchema schemas) (req_params req) p ->
     accepted_as (querySchema schemas) (req_query req) q ->
     rejected_with (bodySchema schemas) (req_body req) m ->
     validate schemas req = Return (Respond 400 (JError m))) /\
  (forall o,
     validate schemas req = Return o ->
     (exists m, o = Respond 400 (JError m)) \/ (exists e, o = Next e)).
Proof.
  split; [now destruct req|].
  split; [|split; [|split; [|split]]].
  - intros req'. unfold validate. rewrite <- !validate_part_Continue.
    destruct (validate_part (paramsSchema schemas) (req_params req)) as [p|o];
      [|split; [discriminate | now intros [H _]]].
    destruct (validate_part (querySchema schemas) (req_query req)) as [q|o];
      [|split; [discriminate | now intros (_ & H & _)]].
    destruct (validate_part (bodySchema schemas) (req_body req)) as [b|o];
      [|split; [discriminate | now intros (_ & _ & H)]].
    destruct req' as [p' q' b']. simpl. split.
    + now intros [= -> -> ->].
    + now intros ([= ->] & [= ->] & [= ->]).
  - intros m H. unfold validate. now rewrite (validate_part_rejected _ _ _ H).
  - intros m p Hp H. unfold validate.
    apply validate_part_Continue in Hp. rewrite Hp.
    now rewrite (validate_part_rejected _ _ _ H).
  - intros m p q Hp Hq H. unfold validate.
    apply validate_part_Continue in Hp, Hq. rewrite Hp, Hq.
    now rewrite (validate_part_rejected _ _ _ H).
  - intros o. unfold validate, validate_part.
    destruct (paramsSchema schemas) as [c1|];
      [destruct (c1 (req_params req)) as [[m|v]|e]|];
      try (intros [= <-]; eauto);
      (destruct (querySchema schemas) as [c2|];
         [destruct (c2 (req_query req)) as [[m2|v2]|e2]|]);
      try (intros [= <-]; eauto);
      (destruct (bodySchema schemas) as [c3|];
         [destruct (c3 (req_body req)) as [[m3|v3]|e3]|]);
      try (intros [= <-]; eauto); discriminate.
Qed.

Lemma validate_checks_in_order_witness :
  validate (mkSchemas (Some sample_id_schema) None (Some sample_body_schema))
    (mkParts (JsString (lit "0")) tt blank_title_body)
  = Return (Respond 400 (JError "id must be a positive number")) /\
  validate (mkSchemas (Some sample_id_schema) None (Some sample_body_schema))
    (mkParts (JsString (lit "7")) tt blank_title_body)
  = Continue (mkParts (JsNumber 7) tt blank_title_body).
Proof.
  split.
  - apply (proj1 (proj2 (proj2
             (validate_checks_in_order
                (mkSchemas (Some sample_id_schema) None (Some sample_body_schema))
                (mkParts (JsString (lit "0")) tt blank_title_body))))).
    exists sample_id_schema. split; reflexivity.
  - apply (proj1 (proj2
             (validate_checks_in_order
                (mkSchemas (Some sample_id_schema) None (Some sample_body_schema))
                (mkParts (JsString (lit "7")) tt blank_title_body)))).
    repeat split.
Defined.

(* ================================================================= *)
(** ** server.js: the allowed origins *)

Lemma split_not_empty (sep : code_unit) (s : jsstring) : split sep s <> [].
Proof.
  induction s as [|c r IH]; simpl; [discriminate|].
  destruct (c =? sep)%N; [discriminate|].
  destruct (split sep r); [contradiction | discriminate].
Qed.

Lemma split_one_piece (sep : code_unit) (p : jsstring) :
  ~ In sep p -> split sep p = [p].
Proof.
  induction p as [|c r IH]; simpl; trivial.
  intros H. destruct (N.eqb_spec c sep) as [E | E]; [now destruct H; left|].
  rewrite IH; tauto.
Qed.

Lemma split_at_separator (sep : code_unit) (p s : jsstring) :
  ~ In sep p -> split sep (p ++ sep :: s) = p :: split sep s.
Proof.
  induction p as [|c r IH]; simpl.
  - intros _. now rewrite N.eqb_refl.
  - intros H. destruct (N.eqb_spec c sep) as [E | E]; [now destruct H; left|].
    rewrite IH; tauto.
Qed.

Lemma split_join (sep : code_unit) (l : list jsstring) :
  l <> [] -> Forall (fun p => ~ In sep p) l -> split sep (join sep l) = l.
Proof.
  intros N F. revert N. induction F as [|p r Hp _ IH]; intros N; [now destruct N|].
  destruct r as [|q r'].
  - simpl. now apply split_one_piece.
  - change (join sep (p :: q :: r')) with (p ++ sep :: join sep (q :: r')).
    rewrite split_at_separator by assumption. f_equal. apply IH. discriminate.
Qed.

Lemma join_empty (sep : code_unit) (l : list jsstring) :
  join sep l = [] -> l = [] \/ l = [[]].
Proof.
  destruct l as [|p [|q r]]; simpl; auto.
  - intros ->. auto.
  - intros H. apply app_eq_nil in H as [_ H]. discriminate.
Qed.

Lemma indexOf_found (o : jsstring) (l : list jsstring) :
  existsb (jsstring_eqb o) l = true <-> In o l.
Proof.
  rewrite existsb_exists. split.
  - intros (x & Hx & E). apply jsstring_eqb_eq in E. now subst.
  - intros H. exists o. split; trivial. apply jsstring_eqb_refl.
Qed.

(** X22. The CORS origin check.  A request without an Origin header,
    or with an empty one, is let through under every configuration.  With
    [ALLOWED_ORIGINS] unset or empty, the one allowed origin is
    http://localhost:5173.  With [ALLOWED_ORIGINS] the comma-joined list of
    some origins (none containing a comma), exactly the origins of that list
    are let through and every other one gets the error "Not allowed by
    CORS": entries are compared as they stand, nothing is trimmed. *)
Theorem cors_origin_is_matched_exactly :
  (forall env,
     corsOrigin (allowed env) None = Normal true /\
     corsOrigin (allowed env) (Some []) = Normal true) /\
  (allowed None = [lit "http://localhost:5173"] /\
   allowed (Some []) = [lit "http://localhost:5173"]) /\
  (forall l o,
     l <> [] -> l <> [[]] -> Forall (fun p => ~ In comma p) l -> o <> [] ->
     allowed (Some (join comma l)) = l /\
     (In o l ->
        corsOrigin (allowed (Some (join comma l))) (Some o) = Normal true) /\
     (~ In o l ->
        corsOrigin (allowed (Some (join comma l))) (Some o) = Throw NotAllowedByCORS)).
Proof.
  split; [now intros env | split; [now split|]].
  intros l o N1 N2 F No.
  assert (A : allowed (Some (join comma l)) = l).
  { unfold allowed.
    destruct (jsstring_eqb (join comma l) []) eqn:E.
    - apply jsstring_eqb_eq in E. apply join_empty in E. tauto.
    - now apply split_join. }
  rewrite A. split; [reflexivity|]. unfold corsOrigin.
  apply jsstring_eqb_neq in No. rewrite No.
  split; intros H.
  - apply indexOf_found in H. now rewrite H.
  - destruct (existsb (jsstring_eqb o) l) eqn:E; trivial.
    apply indexOf_found in E. contradiction.
Qed.

Lemma cors_origin_is_matched_exactly_witness :
  allowed (Some (lit "http://a.example, http://b.example"))
  = [lit "http://a.example"; lit " http://b.example"] /\
  corsOrigin (allowed (Some (lit "http://a.example, http://b.example")))
    (Some (lit "http://a.example")) = Normal true /\
  corsOrigin (allowed (Some (lit "http://a.example, http://b.example")))
    (Some (lit "http://b.example")) = Throw NotAllowedByCORS.
Proof.
  pose proof (proj2 (proj2 cors_origin_is_matched_exactly)
                [lit "http://a.example"; lit " http://b.example"]) as H.
  assert (F : Forall (fun p => ~ In comma p)
                [lit "http://a.example"; lit " http://b.example"]).
  { repeat constructor; intros K; simpl in K;
      repeat (destruct K as [K | K]; [discriminate|]); exact K. }
  split; [|split].
  - apply (H (lit "x") ltac:(discriminate) ltac:(discriminate) F ltac:(discriminate)).
  - apply (H (lit "http://a.example") ltac:(discriminate) ltac:(discriminate) F
             ltac:(discriminate)).
    left. reflexivity.
  - apply (H (lit "http://b.example") ltac:(discriminate) ltac:(discriminate) F
             ltac:(discriminate)).
    intros [K | [K | []]]; discriminate.
Defined.

(** X23. After a Status is deleted it cannot be used or renamed.  Once
    [deleteStatus] has answered 200 for Status [s], every look-up of [s] by
    [resolveStatus] throws "Status not found" (404), so no create or update
    of a Task can attach it, and renaming or deleting it again is answered
    404. *)
Theorem deleted_status_is_unknown (now later : Z) (id : JsValue) (s : Z)
    (db db' : Store) :
  parseInt id = Normal (Some s) ->
  deleteStatus now id db
    = (Respond 200 (JMessage "Status deleted and tasks unlinked"), db') ->
  Prisma.status_findUnique_id s db' = None /\
  (forall statusName, resolveStatus id statusName db' = Throw StatusNotFound) /\
  (forall name, valid_title name ->
     updateStatus later id name db' = (Respond 404 (JError "Status not found"), db')) /\
  deleteStatus later id db' = (Respond 404 (JError "Status not found"), db').
Proof.
  intros P. unfold deleteStatus at 1. rewrite P.
  destruct (Prisma.status_findUnique_id s db) as [row|] eqn:F; [|discriminate].
  unfold Prisma.status_delete.
  replace (Prisma.status_findUnique_id s (Prisma.task_updateMany_unlink now s db))
    with (Some row) by (symmetry; exact F).
  intros [= <-].
  assert (N : Prisma.status_findUnique_id s
                (with_statuses (filter (fun x => negb (status_id x =? s)) (statuses db))
                   (Prisma.task_updateMany_unlink now s db)) = None)
    by apply (find_key_removed status_id).
  split; [exact N | split; [|split]].
  - intros statusName. unfold resolveStatus.
    now rewrite (parseInt_Some_not_nullish _ _ P), P, N.
  - intros name V. apply valid_title_required in V as (x & _ & Rq).
    unfold updateStatus. now rewrite P, Rq, N.
  - unfold deleteStatus. now rewrite P, N.
Qed.

Lemma deleted_status_is_unknown_witness :
  resolveStatus (JsNumber 1) JsUndefined (snd (deleteStatus 60 (JsNumber 1) sprint_store))
  = Throw StatusNotFound.
Proof.
  apply (proj1 (proj2 (deleted_status_is_unknown 60 70 (JsNumber 1) 1 sprint_store
                         (snd (deleteStatus 60 (JsNumber 1) sprint_store))
                         eq_refl eq_refl))).
Defined.
